(** * budgets-app-backend: the controller layer

    A shallow embedding of the two NestJS controllers of the repository,
    [AuthController] and [BudgetsController]
    (src/budgets/budgets.controller.ts), together with the part of the
    NestJS request life cycle their decorators rely on:

      router -> guards -> pipes -> handler -> status / exception mapping.

    Handlers are programs over one kind of effect, a call of a method of the
    injected service; a call can resolve with a value or reject with a
    thrown error.  Running a handler against a service implementation gives
    its result, the final state of the persistence layer and the log of the
    service calls it made. *)

From Stdlib Require Import String Ascii List ZArith QArith Bool Lia.
Import ListNotations.

Open Scope string_scope.
Open Scope Z_scope.

Set Implicit Arguments.
Set Warnings "-register-all".

(** ** JSON values, thrown errors and HTTP responses *)

Inductive Json : Type :=
| JNull
| JBool (b : bool)
| JNum (q : Q)
| JStr (s : string)
| JArr (l : list Json)
| JObj (fields : list (string * Json)).

(** The property names of a JSON object, in order. *)
Definition keys (j : Json) : list string :=
  match j with
  | JObj fields => map fst fields
  | _ => []
  end.

Fixpoint field (k : string) (fields : list (string * Json)) : option Json :=
  match fields with
  | [] => None
  | (k', v) :: rest => if String.eqb k k' then Some v else field k rest
  end.

(** [obj.k] as a string, when [obj] is an object whose property [k] holds a
    string. *)
Definition str_field (k : string) (j : Json) : option string :=
  match j with
  | JObj fields =>
      match field k fields with
      | Some (JStr s) => Some s
      | _ => None
      end
  | _ => None
  end.

(** What a handler, a guard or a pipe can throw: an [HttpException] of
    @nestjs/common, which carries its status, or any other JavaScript
    error. *)
Inductive Thrown : Type :=
| HttpException (status : Z) (message : string)
| JsError (name message : string).

Definition BadRequestException := HttpException 400.
Definition UnauthorizedException := HttpException 401.
Definition NotFoundException := HttpException 404.
Definition InternalServerErrorException := HttpException 500.

(** [user.sub] with [user] undefined. *)
Definition TypeError := JsError "TypeError".

(** The status the framework's exception filter answers with: the
    exception's own status, and 500 for an error that is not an
    [HttpException]. *)
Definition status_of (t : Thrown) : Z :=
  match t with
  | HttpException status _ => status
  | JsError _ _ => 500
  end.

Definition message_of (t : Thrown) : string :=
  match t with
  | HttpException _ message => message
  | JsError _ _ => "Internal server error"
  end.

Record HttpResponse : Type := { statusCode : Z; payload : Json }.

(** The answer to a thrown error: its status and its message (the error
    name that the built-in exceptions add to the body is left out). *)
Definition error_response (t : Thrown) : HttpResponse :=
  {| statusCode := status_of t;
     payload := JObj [("statusCode", JNum (inject_Z (status_of t)));
                      ("message", JStr (message_of t))] |}.

Inductive Method : Type := GET | POST | PATCH | DELETE.

(** Without an [@HttpCode], a POST handler answers 201 and any other 200. *)
Definition success_status (m : Method) : Z :=
  match m with
  | POST => 201
  | _ => 200
  end.

(** ** Results and handler programs *)

Definition Result (A : Type) : Type := (Thrown + A)%type.

Definition ok {A} (a : A) : Result A := inr a.
Definition throw {A} (t : Thrown) : Result A := inl t.

Definition rbind {A B} (r : Result A) (f : A -> Result B) : Result B :=
  match r with
  | inl t => inl t
  | inr a => f a
  end.

(** A handler body: it returns, throws, or calls a service method [e] and
    goes on with [k] when the call resolves and with [h] when it rejects. *)
Inductive Prog (E : Type -> Type) (A : Type) : Type :=
| Ret (a : A)
| Throw (t : Thrown)
| Call (X : Type) (e : E X) (k : X -> Prog E A) (h : Thrown -> Prog E A).

Arguments Ret {E A} a.
Arguments Throw {E A} t.
Arguments Call {E A X} e k h.

Fixpoint bind {E A B} (p : Prog E A) (f : A -> Prog E B) : Prog E B :=
  match p with
  | Ret a => f a
  | Throw t => Throw t
  | Call e k h => Call e (fun x => bind (k x) f) (fun t => bind (h t) f)
  end.

Fixpoint pmap {E A B} (f : A -> B) (p : Prog E A) : Prog E B :=
  match p with
  | Ret a => Ret (f a)
  | Throw t => Throw t
  | Call e k h => Call e (fun x => pmap f (k x)) (fun t => pmap f (h t))
  end.

(** [await svc.m(args)] outside any try/catch: a rejection is rethrown. *)
Definition await {E X} (e : E X) : Prog E X := Call e Ret Throw.

Declare Scope prog_scope.
Delimit Scope prog_scope with prog.
Notation "x <- p ;; q" := (bind p (fun x => q))
  (at level 61, p at next level, right associativity) : prog_scope.

(** A service implementation answers each call from a state [S] (the
    persistence layer), with a value or a thrown error and the next state. *)
Definition Impl (E : Type -> Type) (S : Type) : Type :=
  forall X, E X -> S -> Result X * S.

(** One logged service call: the method and its arguments. *)
Definition Logged (E : Type -> Type) : Type := {X : Type & E X}.

Definition logged {E : Type -> Type} {X} (e : E X) : Logged E := existT _ X e.

Record Run (E : Type -> Type) (S A : Type) : Type :=
  { result : Result A; final : S; calls : list (Logged E) }.

Fixpoint run {E S A} (impl : Impl E S) (p : Prog E A) (s : S) : Run E S A :=
  match p with
  | Ret a => {| result := inr a; final := s; calls := [] |}
  | Throw t => {| result := inl t; final := s; calls := [] |}
  | Call e k h =>
      let (r, s') := impl _ e s in
      let rest := match r with
                  | inr x => run impl (k x) s'
                  | inl t => run impl (h t) s'
                  end in
      {| result := result rest; final := final rest;
         calls := logged e :: calls rest |}
  end.

(** ** Requests *)

(** The request as it arrives: method, the segments of the path (what lies
    between the slashes, none of them empty), the Authorization header, the
    JSON body and the parsed query string. *)
Record RawRequest : Type :=
  { req_method : Method;
    req_path : list string;
    req_authorization : option string;
    req_body : Json;
    req_query : Json }.

(** The request a handler sees through [@Req()]: a guard that admits the
    request stores the object it validated in [req.user]. *)
Record Request (U : Type) : Type :=
  { raw : RawRequest; user : option U }.

(** ** Data model *)

(** Modelled from the spec: the interface
    (src/common/interfaces/payload-token.interface.ts) is not part of the
    sources; the payload of a verified token carries the subject identifier
    of the authenticated user, [sub], the one property the controller
    reads. *)
Record IPayloadToken : Type := { sub : string }.

(** Modelled from the spec: the [User] entity (src/users/entities) is not
    part of the sources; the fields are those of the response example the
    controller documents. *)
Record User : Type :=
  { user_id : string;
    user_name : string;
    user_email : string;
    user_onboarding : bool;
    user_role : string }.

(** Modelled from the spec: the DTO class (src/users/dto) is not part of
    the sources; the body of POST /auth/register carries name, email and
    password. *)
Record CreateUserDto : Type :=
  { name : string; email : string; password : string }.

(** [{ accessToken: string; user: User }] *)
Record JwtAndUser : Type := { accessToken : string; authUser : User }.

Inductive BudgetStatus : Type := pending | active | completed.

(** Modelled from the spec: the [Budget] entity is not part of the sources;
    an owner, the three properties the list can be filtered by, an initial
    amount and a spent amount. *)
Record Budget : Type :=
  { budget_id : string;
    budget_user : string;
    budget_category : string;
    budget_month : Z;
    budget_status : BudgetStatus;
    budget_amount : Q;
    budget_spent : Q }.

(** Modelled from the spec: the DTO class is not part of the sources; the
    query filters of GET /budgets are category, month (0-11) and status
    (pending, active, completed), each optional, as the [@ApiQuery]
    decorators of the controller document them. *)
Record FilterBudgetDto : Type :=
  { category : option string;
    month : option Z;
    status : option BudgetStatus }.

(** [{ message: string }] *)
Record RemoveResult : Type := { message : string }.

(** Modelled from the spec: the interface (interfaces/balance.interface.ts)
    is not part of the sources; the five amounts of the balance endpoint, as
    in the response example the controller documents. *)
Record IBudgetBalance : Type :=
  { initial_amount : Q;
    spent_amount : Q;
    percentage_spent_amount : Q;
    remaining_amount : Q;
    percentage_remaining_amount : Q }.

(** *** Serialisation of what the handlers return *)

Definition status_name (st : BudgetStatus) : string :=
  match st with
  | pending => "pending"
  | active => "active"
  | completed => "completed"
  end.

Definition User_toJSON (u : User) : Json :=
  JObj [("id", JStr (user_id u));
        ("name", JStr (user_name u));
        ("email", JStr (user_email u));
        ("onboarding", JBool (user_onboarding u));
        ("role", JStr (user_role u))].

Definition JwtAndUser_toJSON (r : JwtAndUser) : Json :=
  JObj [("accessToken", JStr (accessToken r));
        ("user", User_toJSON (authUser r))].

Definition Budget_toJSON (b : Budget) : Json :=
  JObj [("id", JStr (budget_id b));
        ("user_id", JStr (budget_user b));
        ("category", JStr (budget_category b));
        ("month", JNum (inject_Z (budget_month b)));
        ("status", JStr (status_name (budget_status b)));
        ("amount", JNum (budget_amount b));
        ("spent", JNum (budget_spent b))].

Definition RemoveResult_toJSON (r : RemoveResult) : Json :=
  JObj [("message", JStr (message r))].

Definition IBudgetBalance_toJSON (b : IBudgetBalance) : Json :=
  JObj [("initial_amount", JNum (initial_amount b));
        ("spent_amount", JNum (spent_amount b));
        ("percentage_spent_amount", JNum (percentage_spent_amount b));
        ("remaining_amount", JNum (remaining_amount b));
        ("percentage_remaining_amount", JNum (percentage_remaining_amount b))].

(** ** ParseUUIDPipe *)

Definition isHex (c : ascii) : bool :=
  let n := N_of_ascii c in
  ((48 <=? n) && (n <=? 57) || (65 <=? n) && (n <=? 70)
   || (97 <=? n) && (n <=? 102))%N.

(** [n] hexadecimal digits, then the rest of the text. *)
Fixpoint hexDigits (n : nat) (s : string) : option string :=
  match n, s with
  | O, _ => Some s
  | S n', String c s' => if isHex c then hexDigits n' s' else None
  | S _, EmptyString => None
  end.

Definition hyphen (s : string) : option string :=
  match s with
  | String "-" s' => Some s'
  | _ => None
  end.

Definition obind {A B} (o : option A) (f : A -> option B) : option B :=
  match o with
  | Some a => f a
  | None => None
  end.

(** The pipe's pattern for a UUID of any version: groups of 8, 4, 4, 4 and
    12 hexadecimal digits of either case, separated by hyphens. *)
Definition isUUID (s : string) : bool :=
  match obind (obind (obind (obind (obind (obind (obind (obind
          (hexDigits 8 s) hyphen) (hexDigits 4)) hyphen) (hexDigits 4))
          hyphen) (hexDigits 4)) hyphen) (hexDigits 12) with
  | Some EmptyString => true
  | _ => false
  end.

Definition ParseUUIDPipe (value : string) : Result string :=
  if isUUID value then ok value
  else throw (BadRequestException "Validation failed (uuid is expected)").

(** ** The injected services, as the controllers see them *)

(** The methods of [BudgetsService] the controller calls, with their
    arguments in the order of the call and the type they resolve with. *)
Module BudgetsService.
Section Dtos.
Variables CreateBudgetDto UpdateBudgetDto : Type.

Inductive Op : Type -> Type :=
| create (user_id : string) (createBudgetDto : CreateBudgetDto) : Op Budget
| findAll (user_id : string) (filterOptions : FilterBudgetDto)
: Op (list Budget)
| findOne (id user_id : string) : Op Budget
| update (id user_id : string) (updateBudgetDto : UpdateBudgetDto)
: Op Budget
| remove (id user_id : string) : Op RemoveResult
| getBalance (id user_id : string) : Op IBudgetBalance.

(** The owner a call is scoped to. *)
Definition owner {X} (op : Op X) : string :=
match op with
| create user_id _ => user_id
| findAll user_id _ => user_id
| findOne _ user_id => user_id
| update _ user_id _ => user_id
| remove _ user_id => user_id
| getBalance _ user_id => user_id
end.

(** The same call on behalf of another owner. *)
Definition with_owner {X} (o : string) (op : Op X) : Op X :=
match op with
| create _ dto => create o dto
| findAll _ f => findAll o f
| findOne id _ => findOne id o
| update id _ dto => update id o dto
| remove id _ => remove id o
| getBalance id _ => getBalance id o
end.
End Dtos.

Arguments create {CreateBudgetDto UpdateBudgetDto} user_id createBudgetDto.
Arguments findAll {CreateBudgetDto UpdateBudgetDto} user_id filterOptions.
Arguments findOne {CreateBudgetDto UpdateBudgetDto} id user_id.
Arguments update {CreateBudgetDto UpdateBudgetDto} id user_id updateBudgetDto.
Arguments remove {CreateBudgetDto UpdateBudgetDto} id user_id.
Arguments getBalance {CreateBudgetDto UpdateBudgetDto} id user_id.
End BudgetsService.

(** The methods of [AuthService] the controller calls.  [login] hands
    [req.user] over as it finds it, so [generateJwtToken] takes a value that
    may be undefined. *)
Module AuthService.
Inductive Op : Type -> Type :=
| registerUser (createUserDto : CreateUserDto) : Op JwtAndUser
| generateJwtToken (user : option User) : Op JwtAndUser.
End AuthService.

(** ** Route declarations *)

Inductive Segment : Type :=
| Lit (s : string)
| Param (name : string).

(** Matching of a request path against a route path; the bindings of the
    path parameters when it matches. *)
Fixpoint match_path (pattern : list Segment) (p : list string)
  : option (list (string * string)) :=
  match pattern, p with
  | [], [] => Some []
  | Lit s :: pattern', x :: p' =>
      if String.eqb s x then match_path pattern' p' else None
  | Param n :: pattern', x :: p' =>
      option_map (cons (n, x)) (match_path pattern' p')
  | _, _ => None
  end.

Fixpoint param (n : string) (params : list (string * string)) : string :=
  match params with
  | [] => ""
  | (n', v) :: rest => if String.eqb n n' then v else param n rest
  end.

(** What a query parameter is documented as ([@ApiQuery]). *)
Record ApiQuery : Type := { query_name : string; required : bool }.

(** ** The application's wiring *)

(** The guards (src/auth/guards) and the pipes applied to [@Body()] and
    [@Query()] arguments (main.ts) are not part of the sources: they are
    parameters of the model.  A guard reads the request and the persistence
    layer and admits with the object that becomes [req.user], or throws. *)
Record Wiring (S CreateBudgetDto UpdateBudgetDto : Type) : Type :=
  { JwtAuthGuard : S -> RawRequest -> Result IPayloadToken;
    LocalAuthGuard : S -> RawRequest -> Result User;
    toCreateUserDto : Json -> Result CreateUserDto;
    toCreateBudgetDto : Json -> Result CreateBudgetDto;
    toUpdateBudgetDto : Json -> Result UpdateBudgetDto;
    toFilterBudgetDto : Json -> Result FilterBudgetDto }.

(** ** AuthController *)

Module AuthController.

Definition prefix : string := "auth".

Inductive Route : Type := Register | Login.

Definition routes : list Route := [Register; Login].

Definition http_method (r : Route) : Method := POST.

Definition route_path (r : Route) : list Segment :=
  match r with
  | Register => [Lit "register"]
  | Login => [Lit "login"]
  end.

(** The statuses a route documents ([@ApiCreatedResponse],
    [@ApiBadRequestResponse], [@ApiUnauthorizedResponse]). *)
Definition documented (r : Route) : list Z :=
  match r with
  | Register => [201; 400]
  | Login => [201; 401]
  end.

Definition createUser (createDoctorDto : CreateUserDto)
  : Prog AuthService.Op JwtAndUser :=
  await (AuthService.registerUser createDoctorDto).

(** [login] is not [async]: it returns what [generateJwtToken] returns,
    and the framework resolves it; an error of the call is the handler's. *)
Definition login (req : Request User) : Prog AuthService.Op JwtAndUser :=
  let user := user req in
  (jwtAndUser <- await (AuthService.generateJwtToken user) ;;
   Ret jwtAndUser)%prog.

Section Invoke.
Variables S CreateBudgetDto UpdateBudgetDto : Type.
Variable w : Wiring S CreateBudgetDto UpdateBudgetDto.

(** [@UseGuards(LocalAuthGuard)] on [login]; [createUser] has no guard. *)
Definition guard (r : Route) (s : S) (q : RawRequest)
  : Result (Request User) :=
  match r with
  | Register => ok {| raw := q; user := None |}
  | Login =>
      rbind (LocalAuthGuard w s q)
            (fun u => ok {| raw := q; user := Some u |})
  end.

(** The arguments of a handler are resolved, through their pipes, and
    when all are the handler is invoked. *)
Definition invoke (r : Route) (req : Request User)
  : Result (Prog AuthService.Op Json) :=
  match r with
  | Register =>
      rbind (toCreateUserDto w (req_body (raw req)))
            (fun dto => ok (pmap JwtAndUser_toJSON (createUser dto)))
  | Login => ok (pmap JwtAndUser_toJSON (login req))
  end.
End Invoke.

End AuthController.

(** ** BudgetsController *)

Module BudgetsController.

Definition prefix : string := "budgets".

Inductive Route : Type :=
| Create | FindAll | FindOne | Update | Remove | GetBalance.

Definition routes : list Route :=
  [Create; FindAll; FindOne; Update; Remove; GetBalance].

Definition http_method (r : Route) : Method :=
  match r with
  | Create => POST
  | FindAll | FindOne | GetBalance => GET
  | Update => PATCH
  | Remove => DELETE
  end.

Definition route_path (r : Route) : list Segment :=
  match r with
  | Create | FindAll => []
  | FindOne | Update | Remove => [Param "id"]
  | GetBalance => [Param "id"; Lit "balance"]
  end.

(** The statuses a route documents ([@ApiOkResponse],
    [@ApiUnauthorizedResponse], [@ApiNotFoundResponse],
    [@ApiInternalServerErrorResponse]). *)
Definition documented (r : Route) : list Z :=
  match r with
  | Create => [200; 401; 500]
  | FindAll => [200; 401]
  | FindOne => [200; 404; 401]
  | Update => [200; 404; 401; 500]
  | Remove => [200; 401; 500]
  | GetBalance => [200; 404; 401; 500]
  end.

Definition api_queries (r : Route) : list ApiQuery :=
  match r with
  | FindAll =>
      [ {| query_name := "category"; required := false |};
        {| query_name := "month"; required := false |};
        {| query_name := "status"; required := false |} ]
  | _ => []
  end.

Section Handlers.
Variables CreateBudgetDto UpdateBudgetDto : Type.

Let Op := BudgetsService.Op CreateBudgetDto UpdateBudgetDto.

(** [user.sub], for [user = req.user as IPayloadToken]: the cast checks
    nothing, the property access throws on undefined. *)
Definition sub_of (user : option IPayloadToken) : Prog Op string :=
  match user with
  | Some u => Ret (sub u)
  | None =>
      Throw (TypeError
               "Cannot read properties of undefined (reading 'sub')")
  end.

Definition create (createBudgetDto : CreateBudgetDto)
           (req : Request IPayloadToken) : Prog Op Budget :=
  let user := user req in
  (user_sub <- sub_of user ;;
   await (BudgetsService.create user_sub createBudgetDto))%prog.

Definition findAll (req : Request IPayloadToken)
           (filterOptions : FilterBudgetDto) : Prog Op (list Budget) :=
  let user := user req in
  (user_sub <- sub_of user ;;
   await (BudgetsService.findAll user_sub filterOptions))%prog.

Definition findOne (id : string) (req : Request IPayloadToken)
  : Prog Op Budget :=
  let user := user req in
  (user_sub <- sub_of user ;;
   await (BudgetsService.findOne id user_sub))%prog.

Definition update (id : string) (updateBudgetDto : UpdateBudgetDto)
           (req : Request IPayloadToken) : Prog Op Budget :=
  let user := user req in
  (user_sub <- sub_of user ;;
   await (BudgetsService.update id user_sub updateBudgetDto))%prog.

Definition remove (id : string) (req : Request IPayloadToken)
  : Prog Op RemoveResult :=
  let user := user req in
  (user_sub <- sub_of user ;;
   await (BudgetsService.remove id user_sub))%prog.

Definition getBalance (id : string) (req : Request IPayloadToken)
  : Prog Op IBudgetBalance :=
  let user := user req in
  (user_sub <- sub_of user ;;
   await (BudgetsService.getBalance id user_sub))%prog.

Variable S : Type.
Variable w : Wiring S CreateBudgetDto UpdateBudgetDto.

(** [@UseGuards(JwtAuthGuard)] on the class: every route runs it. *)
Definition guard (r : Route) (s : S) (q : RawRequest)
  : Result (Request IPayloadToken) :=
  rbind (JwtAuthGuard w s q)
        (fun p => ok {| raw := q; user := Some p |}).

(** The arguments of a handler are resolved in the order they are
    declared, [@Param('id', ParseUUIDPipe)] through the pipe, [@Body()] and
    [@Query()] through the pipes of the application, and when all are the
    handler is invoked. *)
Definition invoke (r : Route) (params : list (string * string))
           (req : Request IPayloadToken) : Result (Prog Op Json) :=
  match r with
  | Create =>
      rbind (toCreateBudgetDto w (req_body (raw req)))
            (fun dto => ok (pmap Budget_toJSON (create dto req)))
  | FindAll =>
      rbind (toFilterBudgetDto w (req_query (raw req)))
            (fun f =>
               ok (pmap (fun l => JArr (map Budget_toJSON l))
                        (findAll req f)))
  | FindOne =>
      rbind (ParseUUIDPipe (param "id" params))
            (fun id => ok (pmap Budget_toJSON (findOne id req)))
  | Update =>
      rbind (ParseUUIDPipe (param "id" params))
            (fun id =>
               rbind (toUpdateBudgetDto w (req_body (raw req)))
                     (fun dto =>
                        ok (pmap Budget_toJSON (update id dto req))))
  | Remove =>
      rbind (ParseUUIDPipe (param "id" params))
            (fun id => ok (pmap RemoveResult_toJSON (remove id req)))
  | GetBalance =>
      rbind (ParseUUIDPipe (param "id" params))
            (fun id =>
               ok (pmap IBudgetBalance_toJSON (getBalance id req)))
  end.
End Handlers.

Arguments create {CreateBudgetDto UpdateBudgetDto} createBudgetDto req.
Arguments findAll {CreateBudgetDto UpdateBudgetDto} req filterOptions.
Arguments findOne {CreateBudgetDto UpdateBudgetDto} id req.
Arguments update {CreateBudgetDto UpdateBudgetDto} id updateBudgetDto req.
Arguments remove {CreateBudgetDto UpdateBudgetDto} id req.
Arguments getBalance {CreateBudgetDto UpdateBudgetDto} id req.

End BudgetsController.

(** ** The application: routing and the request life cycle *)

Inductive Route : Type :=
| AuthRoute (r : AuthController.Route)
| BudgetsRoute (r : BudgetsController.Route).

Definition all_routes : list Route :=
  map AuthRoute AuthController.routes
  ++ map BudgetsRoute BudgetsController.routes.

Definition route_method (r : Route) : Method :=
  match r with
  | AuthRoute r => AuthController.http_method r
  | BudgetsRoute r => BudgetsController.http_method r
  end.

(** [@Controller(prefix)] followed by the path of the method decorator. *)
Definition full_path (r : Route) : list Segment :=
  match r with
  | AuthRoute r => Lit AuthController.prefix :: AuthController.route_path r
  | BudgetsRoute r =>
      Lit BudgetsController.prefix :: BudgetsController.route_path r
  end.

Definition Method_eqb (a b : Method) : bool :=
  match a, b with
  | GET, GET | POST, POST | PATCH, PATCH | DELETE, DELETE => true
  | _, _ => false
  end.

Fixpoint find_route (rs : list Route) (m : Method) (p : list string)
  : option (Route * list (string * string)) :=
  match rs with
  | [] => None
  | r :: rs' =>
      if Method_eqb (route_method r) m then
        match match_path (full_path r) p with
        | Some params => Some (r, params)
        | None => find_route rs' m p
        end
      else find_route rs' m p
  end.

Definition router (q : RawRequest) : option (Route * list (string * string)) :=
  find_route all_routes (req_method q) (req_path q).

(** How far a request got. *)
Inductive Stage : Type := Routing | Guards | Pipes | Handler.

Section App.
Variables S CreateBudgetDto UpdateBudgetDto : Type.

Let BudgetsOp := BudgetsService.Op CreateBudgetDto UpdateBudgetDto.

(** The two services the controllers are constructed with. *)
Record Services : Type :=
  { authService : Impl AuthService.Op S;
    budgetsService : Impl BudgetsOp S }.

Inductive ServiceCall : Type :=
| AuthCall (c : Logged AuthService.Op)
| BudgetsCall (c : Logged BudgetsOp).

(** What serving one request amounts to: the response, the stage that
    produced it, the state left behind and the service calls made. *)
Record Outcome : Type :=
  { response : HttpResponse;
    stage : Stage;
    state : S;
    service_calls : list ServiceCall }.

Definition rejected (st : Stage) (t : Thrown) (s : S) : Outcome :=
  {| response := error_response t; stage := st; state := s;
     service_calls := [] |}.

(** The handler has been invoked: its program runs against the service;
    what it resolves with is sent with the status of the method, what it
    throws goes through the exception filter. *)
Definition respond {E} (inj : Logged E -> ServiceCall) (m : Method)
           (r : Run E S Json) : Outcome :=
  {| response := match result r with
                 | inr j => {| statusCode := success_status m; payload := j |}
                 | inl t => error_response t
                 end;
     stage := Handler;
     state := final r;
     service_calls := map inj (calls r) |}.

Variable w : Wiring S CreateBudgetDto UpdateBudgetDto.
Variable svc : Services.

Definition serve (q : RawRequest) (s : S) : Outcome :=
  match router q with
  | None => rejected Routing (NotFoundException "Cannot find the route") s
  | Some (AuthRoute r, _) =>
      match AuthController.guard w r s q with
      | inl t => rejected Guards t s
      | inr req =>
          match AuthController.invoke w r req with
          | inl t => rejected Pipes t s
          | inr p =>
              respond AuthCall (AuthController.http_method r)
                      (run (authService svc) p s)
          end
      end
  | Some (BudgetsRoute r, params) =>
      match BudgetsController.guard w r s q with
      | inl t => rejected Guards t s
      | inr req =>
          match BudgetsController.invoke w r params req with
          | inl t => rejected Pipes t s
          | inr p =>
              respond BudgetsCall (BudgetsController.http_method r)
                      (run (budgetsService svc) p s)
          end
      end
  end.

(** The owner scopes of the budget calls among [l]. *)
Fixpoint owners (l : list ServiceCall) : list string :=
  match l with
  | [] => []
  | BudgetsCall (existT _ _ op) :: l' => BudgetsService.owner op :: owners l'
  | AuthCall _ :: l' => owners l'
  end.

End App.

Arguments AuthCall {CreateBudgetDto UpdateBudgetDto} c.
Arguments BudgetsCall {CreateBudgetDto UpdateBudgetDto} c.
Arguments rejected {S CreateBudgetDto UpdateBudgetDto} st t s.
Arguments respond {S CreateBudgetDto UpdateBudgetDto E} inj m r.

(** ** The services, guards and validation behind the controllers

    None of them is part of the sources.  What the interface description
    says about them is modelled here; what it leaves open (the JWT and hash
    libraries, the ORM, the rules of the DTO classes, how budgets are
    created, listed and updated) stays a parameter. *)

Record Account : Type := { account_user : User; account_password : string }.

(** The persistence layer: the rows of the two tables. *)
Record Db : Type := { budgets : list Budget; accounts : list Account }.

Record Infra (CreateBudgetDto UpdateBudgetDto : Type) : Type :=
  { jwt_sign : IPayloadToken -> string;
    jwt_verify : string -> option IPayloadToken;
    hash_password : string -> string;
    compare_password : string -> string -> bool;
    new_user_id : Db -> string;
    violations : CreateUserDto -> list string;
    db_delete : string -> string -> Db -> option Db;
    create_budget : string -> CreateBudgetDto -> Db -> Result Budget * Db;
    find_budgets : string -> FilterBudgetDto -> Db -> Result (list Budget) * Db;
    update_budget :
      string -> string -> UpdateBudgetDto -> Db -> Result Budget * Db;
    budget_dto : Json -> Result CreateBudgetDto;
    budget_patch : Json -> Result UpdateBudgetDto;
    budget_filter : Json -> Result FilterBudgetDto }.

Section Modelled.
Variables CreateBudgetDto UpdateBudgetDto : Type.
Variable infra : Infra CreateBudgetDto UpdateBudgetDto.

(** The token of an [Authorization: Bearer <token>] header. *)
Definition bearer_token (h : option string) : option string :=
  match h with
  | Some v =>
      if String.prefix "Bearer " v
      then Some (String.substring 7 (String.length v - 7) v)
      else None
  | None => None
  end.

(** Modelled from the spec: [JwtAuthGuard] is not part of the sources.  All
    budget routes require a bearer token validated by a guard; a request
    without a valid one is answered 401. *)
Definition JwtAuthGuard_spec (db : Db) (q : RawRequest)
  : Result IPayloadToken :=
  match obind (bearer_token (req_authorization q)) (jwt_verify infra) with
  | Some p => ok p
  | None => throw (UnauthorizedException "Unauthorized")
  end.

Definition find_account (e : string) (db : Db) : option Account :=
  find (fun a => String.eqb (user_email (account_user a)) e) (accounts db).

(** The account the email and password of a login body are valid for. *)
Definition authenticate (db : Db) (j : Json) : option User :=
  match str_field "email" j, str_field "password" j with
  | Some e, Some pw =>
      match find_account e db with
      | Some a =>
          if compare_password infra pw (account_password a)
          then Some (account_user a)
          else None
      | None => None
      end
  | _, _ => None
  end.

(** Modelled from the spec: [LocalAuthGuard] is not part of the sources.
    POST /auth/login is guarded by a local credential check on the email and
    password of the body; invalid credentials are answered 401. *)
Definition LocalAuthGuard_spec (db : Db) (q : RawRequest) : Result User :=
  match authenticate db (req_body q) with
  | Some u => ok u
  | None => throw (UnauthorizedException "Invalid credentials")
  end.

Definition parse_CreateUserDto (j : Json) : option CreateUserDto :=
  match str_field "name" j, str_field "email" j, str_field "password" j with
  | Some n, Some e, Some pw => Some {| name := n; email := e; password := pw |}
  | _, _, _ => None
  end.

(** Modelled from the spec: the validation of the register body
    ([CreateUserDto] and the validation pipe of main.ts) is not part of the
    sources.  The body carries name, email and password; a validation
    failure is answered 400. *)
Definition toCreateUserDto_spec (j : Json) : Result CreateUserDto :=
  match parse_CreateUserDto j with
  | Some dto =>
      match violations infra dto with
      | [] => ok dto
      | v :: _ => throw (BadRequestException v)
      end
  | None => throw (BadRequestException "Bad Request")
  end.

Definition spec_wiring : Wiring Db CreateBudgetDto UpdateBudgetDto :=
  {| JwtAuthGuard := JwtAuthGuard_spec;
     LocalAuthGuard := LocalAuthGuard_spec;
     toCreateUserDto := toCreateUserDto_spec;
     toCreateBudgetDto := budget_dto infra;
     toUpdateBudgetDto := budget_patch infra;
     toFilterBudgetDto := budget_filter infra |}.

(** Modelled from the spec: [AuthService.generateJwtToken] is not part of
    the sources.  It answers [{ accessToken, user }], the token being issued
    for the user. *)
Definition generateJwtToken_spec (u : option User) (db : Db)
  : Result JwtAndUser * Db :=
  match u with
  | Some u =>
      (ok {| accessToken := jwt_sign infra {| sub := user_id u |};
             authUser := u |}, db)
  | None =>
      (throw (TypeError "Cannot read properties of undefined (reading 'id')"),
       db)
  end.

(** Modelled from the spec: [AuthService.registerUser] is not part of the
    sources.  A body with name, email and password registers a user and
    answers [{ accessToken, user }]. *)
Definition registerUser_spec (dto : CreateUserDto) (db : Db)
  : Result JwtAndUser * Db :=
  let u := {| user_id := new_user_id infra db;
              user_name := name dto;
              user_email := email dto;
              user_onboarding := false;
              user_role := "user" |} in
  let a := {| account_user := u;
              account_password := hash_password infra (password dto) |} in
  generateJwtToken_spec (Some u)
    {| budgets := budgets db; accounts := accounts db ++ [a] |}.

Definition authService_spec : Impl AuthService.Op Db :=
  fun X op =>
    match op in AuthService.Op X return Db -> Result X * Db with
    | AuthService.registerUser dto => registerUser_spec dto
    | AuthService.generateJwtToken u => generateJwtToken_spec u
    end.

(** The budget with this id among those of this owner. *)
Definition find_budget (id user_id : string) (db : Db) : option Budget :=
  find (fun b => String.eqb (budget_id b) id
                 && String.eqb (budget_user b) user_id) (budgets db).

(** Modelled from the spec: [BudgetsService.findOne] is not part of the
    sources.  GET /budgets/:id answers the budget, 404 if absent. *)
Definition findOne_spec (id user_id : string) (db : Db) : Result Budget * Db :=
  match find_budget id user_id db with
  | Some b => (ok b, db)
  | None => (throw (NotFoundException "Budget not found"), db)
  end.

(** Modelled from the spec: the balance computation is not part of the
    sources.  Spent / initial x 100, remaining = initial - spent, and the
    remaining percentage from the remaining amount; amounts are rationals,
    the rounding of JavaScript numbers is not modelled. *)
Definition balance (b : Budget) : IBudgetBalance :=
  let i := budget_amount b in
  let s := budget_spent b in
  let remaining := (i - s)%Q in
  {| initial_amount := i;
     spent_amount := s;
     percentage_spent_amount := (s / i * 100)%Q;
     remaining_amount := remaining;
     percentage_remaining_amount := (remaining / i * 100)%Q |}.

(** Modelled from the spec: [BudgetsService.getBalance] is not part of the
    sources.  GET /budgets/:id/balance answers the five amounts, 404 if the
    budget is absent. *)
Definition getBalance_spec (id user_id : string) (db : Db)
  : Result IBudgetBalance * Db :=
  match find_budget id user_id db with
  | Some b => (ok (balance b), db)
  | None =>
      (throw (NotFoundException "Budget to calculate the balance not found"),
       db)
  end.

(** Modelled from the spec: [BudgetsService.remove] is not part of the
    sources.  DELETE /budgets/:id answers [{ message }]; errors are surfaced
    as 500 on failure. *)
Definition remove_spec (id user_id : string) (db : Db)
  : Result RemoveResult * Db :=
  match db_delete infra id user_id db with
  | Some db' => (ok {| message := "Budget deleted successfully" |}, db')
  | None =>
      (throw (InternalServerErrorException
                "Error: The budget could not be deleted"), db)
  end.

Definition budgetsService_spec
  : Impl (BudgetsService.Op CreateBudgetDto UpdateBudgetDto) Db :=
  fun X op =>
    match op in BudgetsService.Op _ _ X return Db -> Result X * Db with
    | BudgetsService.create user_id dto => create_budget infra user_id dto
    | BudgetsService.findAll user_id f => find_budgets infra user_id f
    | BudgetsService.findOne id user_id => findOne_spec id user_id
    | BudgetsService.update id user_id dto =>
        update_budget infra id user_id dto
    | BudgetsService.remove id user_id => remove_spec id user_id
    | BudgetsService.getBalance id user_id => getBalance_spec id user_id
    end.

Definition spec_services : Services Db CreateBudgetDto UpdateBudgetDto :=
  {| authService := authService_spec;
     budgetsService := budgetsService_spec |}.

End Modelled.

(** ** A concrete instance

    A small deployment to evaluate the model on: bodies reach the budget
    handlers unvalidated, a token is the subject behind a fixed prefix, and
    the database holds one account and two budgets of two owners. *)

Module Demo.

Definition sign (p : IPayloadToken) : string := "jwt." ++ sub p.

Definition verify (t : string) : option IPayloadToken :=
  if String.prefix "jwt." t
  then Some {| sub := String.substring 4 (String.length t - 4) t |}
  else None.

Definition hash (pw : string) : string := "hashed:" ++ pw.

Definition rules (dto : CreateUserDto) : list string :=
  (if String.eqb (name dto) "" then ["name should not be empty"] else [])
  ++ (if String.eqb (email dto) "" then ["email must be an email"] else []).

Definition owned (id user_id : string) (b : Budget) : bool :=
  String.eqb (budget_id b) id && String.eqb (budget_user b) user_id.

Definition delete (id user_id : string) (db : Db) : option Db :=
  if existsb (owned id user_id) (budgets db)
  then Some {| budgets := filter (fun b => negb (owned id user_id b))
                                 (budgets db);
               accounts := accounts db |}
  else None.

Definition parse_status (v : string) : option BudgetStatus :=
  if String.eqb v "pending" then Some pending
  else if String.eqb v "active" then Some active
  else if String.eqb v "completed" then Some completed
  else None.

Definition months : list (string * Z) :=
  [("0", 0); ("1", 1); ("2", 2); ("3", 3); ("4", 4); ("5", 5); ("6", 6);
   ("7", 7); ("8", 8); ("9", 9); ("10", 10); ("11", 11)].

Definition parse_month (v : string) : option Z :=
  option_map snd (find (fun m => String.eqb (fst m) v) months).

(** A filter that is present has to be well formed. *)
Definition filter_of (j : Json) : Result FilterBudgetDto :=
  match option_map parse_month (str_field "month" j),
        option_map parse_status (str_field "status" j) with
  | Some None, _ =>
      throw (BadRequestException "month must not be greater than 11")
  | _, Some None =>
      throw (BadRequestException "status must be a valid enum value")
  | m, st =>
      ok {| category := str_field "category" j;
            month := obind m (fun x => x);
            status := obind st (fun x => x) |}
  end.

Definition opt_eqb {A} (eqb : A -> A -> bool) (o : option A) (a : A) : bool :=
  match o with
  | Some x => eqb x a
  | None => true
  end.

Definition matches (user_id : string) (f : FilterBudgetDto) (b : Budget)
  : bool :=
  String.eqb (budget_user b) user_id
  && opt_eqb String.eqb (category f) (budget_category b)
  && opt_eqb Z.eqb (month f) (budget_month b)
  && opt_eqb String.eqb (option_map status_name (status f))
             (status_name (budget_status b)).

Definition infra : Infra Json Json :=
  {| jwt_sign := sign;
     jwt_verify := verify;
     hash_password := hash;
     compare_password := fun pw h => String.eqb (hash pw) h;
     new_user_id := fun _ => "7d444840-9dc0-11d1-b245-5ffdce74fad2";
     violations := rules;
     db_delete := delete;
     create_budget := fun _ _ db =>
       (throw (InternalServerErrorException
                 "Error: The budget could not be created"), db);
     find_budgets := fun user_id f db =>
       (ok (filter (matches user_id f) (budgets db)), db);
     update_budget := fun _ _ _ db =>
       (throw (InternalServerErrorException
                 "Error: The budget could not be updated"), db);
     budget_dto := fun j => ok j;
     budget_patch := fun j => ok j;
     budget_filter := filter_of |}.

Definition jane : User :=
  {| user_id := "u-jane"; user_name := "Jane Smith";
     user_email := "janesmith@example.com"; user_onboarding := false;
     user_role := "user" |}.

Definition groceries : Budget :=
  {| budget_id := "b2c6e182-6aef-4c38-8d26-9153d7ebc7d2";
     budget_user := "u-jane"; budget_category := "groceries";
     budget_month := 0; budget_status := active;
     budget_amount := 1000; budget_spent := 200 |}.

Definition rent : Budget :=
  {| budget_id := "0b9e1f3a-1c2d-4e5f-8a9b-0c1d2e3f4a5b";
     budget_user := "u-john"; budget_category := "rent";
     budget_month := 11; budget_status := pending;
     budget_amount := 800; budget_spent := 0 |}.

Definition db : Db :=
  {| budgets := [groceries; rent];
     accounts := [ {| account_user := jane;
                      account_password := hash "secret" |} ] |}.

Definition request (m : Method) (p : list string) (auth : option string)
           (b : Json) : RawRequest :=
  {| req_method := m; req_path := p; req_authorization := auth;
     req_body := b; req_query := JObj [] |}.

Definition search (auth : option string) (query : list (string * string))
  : RawRequest :=
  {| req_method := GET; req_path := ["budgets"]; req_authorization := auth;
     req_body := JNull;
     req_query := JObj (map (fun kv => (fst kv, JStr (snd kv))) query) |}.

Definition as_jane : option string := Some "Bearer jwt.u-jane".

Definition app : RawRequest -> Db -> Outcome Db Json Json :=
  serve (spec_wiring infra) (spec_services infra).

End Demo.

(** The same instance with a service that does create budgets, from the
    category of the body. *)
Module Ledger.

Definition create (user_id : string) (dto : Json) (db : Db)
  : Result Budget * Db :=
  match str_field "category" dto with
  | Some c =>
      let b := {| budget_id := "6fa459ea-ee8a-3ca4-894e-db77e160355e";
                  budget_user := user_id; budget_category := c;
                  budget_month := 0; budget_status := pending;
                  budget_amount := 0; budget_spent := 0 |} in
      (ok b, {| budgets := budgets db ++ [b]; accounts := accounts db |})
  | None =>
      (throw (InternalServerErrorException
                "Error: The budget could not be created"), db)
  end.

Definition infra : Infra Json Json :=
  {| jwt_sign := jwt_sign Demo.infra;
     jwt_verify := jwt_verify Demo.infra;
     hash_password := hash_password Demo.infra;
     compare_password := compare_password Demo.infra;
     new_user_id := new_user_id Demo.infra;
     violations := violations Demo.infra;
     db_delete := db_delete Demo.infra;
     create_budget := create;
     find_budgets := find_budgets Demo.infra;
     update_budget := update_budget Demo.infra;
     budget_dto := budget_dto Demo.infra;
     budget_patch := budget_patch Demo.infra;
     budget_filter := budget_filter Demo.infra |}.

Definition app : RawRequest -> Db -> Outcome Db Json Json :=
  serve (spec_wiring infra) (spec_services infra).

End Ledger.

(** ** Notions the properties are stated with *)

(** A program that makes the one call [e] and hands back what the call
    resolves with, or rethrows what it rejects with. *)
Definition delegates {E S A} (impl : Impl E S) (p : Prog E A) (e : E A)
  : Prop :=
  forall s,
    run impl p s
    = {| result := fst (impl _ e s); final := snd (impl _ e s);
         calls := [logged e] |}.

(** The response to a request whose handler made the call [e]. *)
Definition reply {X} (m : Method) (f : X -> Json) (r : Result X)
  : HttpResponse :=
  match r with
  | inr x => {| statusCode := success_status m; payload := f x |}
  | inl t => error_response t
  end.

(** The same request under another Authorization header. *)
Definition with_authorization (a : option string) (q : RawRequest)
  : RawRequest :=
  {| req_method := req_method q;
     req_path := req_path q;
     req_authorization := a;
     req_body := req_body q;
     req_query := req_query q |}.

(** A logged budgets call on behalf of another owner. *)
Definition rescope {CreateBudgetDto UpdateBudgetDto} (o : string)
           (c : ServiceCall CreateBudgetDto UpdateBudgetDto)
  : ServiceCall CreateBudgetDto UpdateBudgetDto :=
  match c with
  | BudgetsCall (existT _ _ op) =>
      BudgetsCall (logged (BudgetsService.with_owner o op))
  | AuthCall c => AuthCall c
  end.

(** The statuses a route documents, whichever controller declares it. *)
Definition route_documented (r : Route) : list Z :=
  match r with
  | AuthRoute r => AuthController.documented r
  | BudgetsRoute r => BudgetsController.documented r
  end.

(** * Properties *)

(** ** Sanity checks of the model *)

Example isUUID_documented_example :
  isUUID "b2c6e182-6aef-4c38-8d26-9153d7ebc7d2" = true.
Proof. reflexivity. Qed.

Example isUUID_rejects_short : isUUID "42" = false.
Proof. reflexivity. Qed.

(** The route each request line of the interface resolves to. *)
Example router_table :
  map (fun mp => find_route all_routes (fst mp) (snd mp))
      [ (POST, ["auth"; "register"]); (POST, ["auth"; "login"]);
        (POST, ["budgets"]); (GET, ["budgets"]);
        (GET, ["budgets"; "b1"]); (PATCH, ["budgets"; "b1"]);
        (DELETE, ["budgets"; "b1"]); (GET, ["budgets"; "b1"; "balance"]);
        (GET, ["users"]) ]
  = [ Some (AuthRoute AuthController.Register, []);
      Some (AuthRoute AuthController.Login, []);
      Some (BudgetsRoute BudgetsController.Create, []);
      Some (BudgetsRoute BudgetsController.FindAll, []);
      Some (BudgetsRoute BudgetsController.FindOne, [("id", "b1")]);
      Some (BudgetsRoute BudgetsController.Update, [("id", "b1")]);
      Some (BudgetsRoute BudgetsController.Remove, [("id", "b1")]);
      Some (BudgetsRoute BudgetsController.GetBalance, [("id", "b1")]);
      None ].
Proof. reflexivity. Qed.

(** ** Running a handler that delegates *)

Lemma await_delegates {E S X} (impl : Impl E S) (e : E X) :
  delegates impl (await e) e.
Proof.
  intro s. simpl. destruct (impl X e s) as [[t | x] s']; reflexivity.
Qed.

Lemma run_pmap_await {E S X} (impl : Impl E S) (f : X -> Json) (e : E X) s :
  run impl (pmap f (await e)) s
  = {| result := match fst (impl _ e s) with
                 | inr x => inr (f x)
                 | inl t => inl t
                 end;
       final := snd (impl _ e s);
       calls := [logged e] |}.
Proof.
  simpl. destruct (impl X e s) as [[t | x] s']; reflexivity.
Qed.

Lemma respond_pmap_await {E S C U X} (impl : Impl E S)
      (inj : Logged E -> ServiceCall C U) m (f : X -> Json) (e : E X) s :
  respond inj m (run impl (pmap f (await e)) s)
  = {| response := reply m f (fst (impl _ e s));
       stage := Handler;
       state := snd (impl _ e s);
       service_calls := [inj (logged e)] |}.
Proof.
  rewrite run_pmap_await. unfold respond, reply. simpl.
  destruct (fst (impl X e s)); reflexivity.
Qed.

(** ** The router finds what the decorators declare *)

Lemma find_route_sound rs m p r params :
  find_route rs m p = Some (r, params) ->
  In r rs /\ route_method r = m
  /\ match_path (full_path r) p = Some params.
Proof.
  induction rs as [| r0 rs IH]; simpl; [discriminate |].
  destruct (Method_eqb (route_method r0) m) eqn:Hm.
  - destruct (match_path (full_path r0) p) as [ps |] eqn:Hp.
    + intro H. injection H as <- <-. repeat split; auto.
      destruct (route_method r0), m; simpl in Hm; congruence.
    + intro H. destruct (IH H) as (? & ? & ?). auto.
  - intro H. destruct (IH H) as (? & ? & ?). auto.
Qed.

Lemma router_sound q r params :
  router q = Some (r, params) ->
  route_method r = req_method q
  /\ match_path (full_path r) (req_path q) = Some params.
Proof.
  intro H. apply find_route_sound in H. tauto.
Qed.

(** ** Serving a budgets route *)

Section BudgetsRoutes.
Variables S CreateBudgetDto UpdateBudgetDto : Type.
Variable w : Wiring S CreateBudgetDto UpdateBudgetDto.
Variable svc : Services S CreateBudgetDto UpdateBudgetDto.

Lemma serve_budgets_unauthorized q s r params t :
  router q = Some (BudgetsRoute r, params) ->
  JwtAuthGuard w s q = inl t ->
  serve w svc q s = rejected Guards t s.
Proof.
  intros Hr Hg. unfold serve, BudgetsController.guard.
  rewrite Hr, Hg. reflexivity.
Qed.

Lemma serve_budgets_admitted q s r params p :
  router q = Some (BudgetsRoute r, params) ->
  JwtAuthGuard w s q = inr p ->
  serve w svc q s
  = match BudgetsController.invoke w r params {| raw := q; user := Some p |}
    with
    | inl t => rejected Pipes t s
    | inr prog =>
        respond BudgetsCall (BudgetsController.http_method r)
                (run (budgetsService svc) prog s)
    end.
Proof.
  intros Hr Hg. unfold serve, BudgetsController.guard.
  rewrite Hr, Hg. reflexivity.
Qed.

(** What resolving the arguments of a route gives depends on the request
    through its body and query only, and on [req.user] through the owner of
    the one call the handler makes. *)
Lemma invoke_cases r params q :
  (exists t, forall q' p',
        req_body q' = req_body q -> req_query q' = req_query q ->
        BudgetsController.invoke w r params {| raw := q'; user := Some p' |}
        = inl t)
  \/ (exists X (op : string -> BudgetsService.Op _ _ X) (f : X -> Json),
         (forall o, BudgetsService.owner (op o) = o)
         /\ (forall o o', BudgetsService.with_owner o' (op o) = op o')
         /\ forall q' p',
             req_body q' = req_body q -> req_query q' = req_query q ->
             BudgetsController.invoke w r params
                                      {| raw := q'; user := Some p' |}
             = inr (pmap f (await (op (sub p'))))).
Proof.
  destruct r.
  - destruct (toCreateBudgetDto w (req_body q)) as [t | dto] eqn:E.
    + left. exists t. intros q' p' Hb _. cbn. rewrite Hb, E. reflexivity.
    + right.
      exists _, (fun o => BudgetsService.create o dto), Budget_toJSON.
      repeat split. intros q' p' Hb _. cbn. rewrite Hb, E. reflexivity.
  - destruct (toFilterBudgetDto w (req_query q)) as [t | f] eqn:E.
    + left. exists t. intros q' p' _ Hq. cbn. rewrite Hq, E. reflexivity.
    + right.
      exists _, (fun o => BudgetsService.findAll o f),
        (fun l => JArr (map Budget_toJSON l)).
      repeat split. intros q' p' _ Hq. cbn. rewrite Hq, E. reflexivity.
  - destruct (ParseUUIDPipe (param "id" params)) as [t | id] eqn:E.
    + left. exists t. intros q' p' _ _. cbn. rewrite E. reflexivity.
    + right.
      exists _, (fun o => BudgetsService.findOne id o), Budget_toJSON.
      repeat split. intros q' p' _ _. cbn. rewrite E. reflexivity.
  - destruct (ParseUUIDPipe (param "id" params)) as [t | id] eqn:E.
    + left. exists t. intros q' p' _ _. cbn. rewrite E. reflexivity.
    + destruct (toUpdateBudgetDto w (req_body q)) as [t | dto] eqn:E'.
      * left. exists t. intros q' p' Hb _. cbn. rewrite E. cbn.
        rewrite Hb, E'. reflexivity.
      * right.
        exists _, (fun o => BudgetsService.update id o dto), Budget_toJSON.
        repeat split. intros q' p' Hb _. cbn. rewrite E. cbn.
        rewrite Hb, E'. reflexivity.
  - destruct (ParseUUIDPipe (param "id" params)) as [t | id] eqn:E.
    + left. exists t. intros q' p' _ _. cbn. rewrite E. reflexivity.
    + right.
      exists _, (fun o => BudgetsService.remove id o), RemoveResult_toJSON.
      repeat split. intros q' p' _ _. cbn. rewrite E. reflexivity.
  - destruct (ParseUUIDPipe (param "id" params)) as [t | id] eqn:E.
    + left. exists t. intros q' p' _ _. cbn. rewrite E. reflexivity.
    + right.
      exists _, (fun o => BudgetsService.getBalance id o),
        IBudgetBalance_toJSON.
      repeat split. intros q' p' _ _. cbn. rewrite E. reflexivity.
Qed.

(** Once the guard has admitted the request with payload [p], a budgets
    route either stops in a pipe, with no call made, or invokes its handler,
    which makes one call, scoped to [sub p]. *)
Lemma serve_budgets_cases q s r params p :
  router q = Some (BudgetsRoute r, params) ->
  JwtAuthGuard w s q = inr p ->
  (exists t, serve w svc q s = rejected Pipes t s)
  \/ (exists X (op : BudgetsService.Op _ _ X) (f : X -> Json),
         BudgetsService.owner op = sub p
         /\ serve w svc q s
            = {| response :=
                   reply (BudgetsController.http_method r) f
                         (fst (budgetsService svc op s));
                 stage := Handler;
                 state := snd (budgetsService svc op s);
                 service_calls := [BudgetsCall (logged op)] |}).
Proof.
  intros Hr Hg. rewrite (serve_budgets_admitted _ _ Hr Hg).
  destruct (invoke_cases r params q)
    as [[t Ht] | (X & op & f & Ho & _ & Hi)].
  - left. exists t. rewrite Ht; reflexivity.
  - right. exists X, (op (sub p)), f. split; [apply Ho |].
    rewrite Hi by reflexivity. apply respond_pmap_await.
Qed.

End BudgetsRoutes.

(** ** Guarding and owner scope of the budget routes *)

(** C1.  For every route of [BudgetsController] (create, findAll, findOne,
    update, remove, getBalance): a request [JwtAuthGuard] rejects goes no
    further than the guard; a request that reaches the pipes or the handler
    is one the guard admitted; and every call the handler makes to
    [BudgetsService] carries as owner the [sub] of the payload the guard
    stored in [req.user], so that the handler's one call is scoped to the
    caller. *)
Theorem budgets_routes_guarded_and_scoped
        S CreateBudgetDto UpdateBudgetDto
        (w : Wiring S CreateBudgetDto UpdateBudgetDto)
        (svc : Services S CreateBudgetDto UpdateBudgetDto)
        (q : RawRequest) (s : S) r params :
  router q = Some (BudgetsRoute r, params) ->
  let o := serve w svc q s in
  (forall t, JwtAuthGuard w s q = inl t -> o = rejected Guards t s)
  /\ (stage o = Pipes \/ stage o = Handler ->
      exists p, JwtAuthGuard w s q = inr p)
  /\ (forall c, In c (service_calls o) ->
      exists p X (op : BudgetsService.Op _ _ X),
        JwtAuthGuard w s q = inr p
        /\ c = BudgetsCall (logged op)
        /\ BudgetsService.owner op = sub p)
  /\ (stage o = Handler ->
      exists p, JwtAuthGuard w s q = inr p
                /\ owners (service_calls o) = [sub p]).
Proof.
  intros Hr o. subst o.
  destruct (JwtAuthGuard w s q) as [t | p] eqn:Hg.
  - rewrite (serve_budgets_unauthorized w svc _ _ Hr Hg). simpl.
    repeat split.
    + intros t' Ht'. congruence.
    + intros [H | H]; discriminate.
    + intros c [].
    + discriminate.
  - destruct (serve_budgets_cases w svc _ _ Hr Hg)
      as [[t ->] | (X & op & f & Ho & ->)]; simpl.
    + repeat split.
      * discriminate.
      * intros _. eauto.
      * intros c [].
      * discriminate.
    + repeat split.
      * discriminate.
      * intros _. eauto.
      * intros c [<- | []]. exists p, X, op. auto.
      * intros _. exists p. rewrite Ho. auto.
Qed.

Lemma budgets_routes_guarded_and_scoped_witness :
  let q := Demo.request GET ["budgets"; "b2c6e182-6aef-4c38-8d26-9153d7ebc7d2"]
                        Demo.as_jane JNull in
  router q
  = Some (BudgetsRoute BudgetsController.FindOne,
          [("id", "b2c6e182-6aef-4c38-8d26-9153d7ebc7d2")])
  /\ let o := Demo.app q Demo.db in
     (forall t, JwtAuthGuard_spec Demo.infra Demo.db q = inl t ->
                o = rejected Guards t Demo.db)
     /\ (stage o = Pipes \/ stage o = Handler ->
         exists p, JwtAuthGuard_spec Demo.infra Demo.db q = inr p)
     /\ (forall c, In c (service_calls o) ->
         exists p X (op : BudgetsService.Op _ _ X),
           JwtAuthGuard_spec Demo.infra Demo.db q = inr p
           /\ c = BudgetsCall (logged op)
           /\ BudgetsService.owner op = sub p)
     /\ (stage o = Handler ->
         exists p, JwtAuthGuard_spec Demo.infra Demo.db q = inr p
                   /\ owners (service_calls o) = [sub p]).
Proof.
  intro q. split; [reflexivity |].
  apply (budgets_routes_guarded_and_scoped
           (spec_wiring Demo.infra) (spec_services Demo.infra) q Demo.db
           (r := BudgetsController.FindOne)
           (params := [("id", "b2c6e182-6aef-4c38-8d26-9153d7ebc7d2")])).
  reflexivity.
Defined.

Example jane_reads_her_budget :
  let o := Demo.app
             (Demo.request GET
                           ["budgets"; "b2c6e182-6aef-4c38-8d26-9153d7ebc7d2"]
                           Demo.as_jane JNull) Demo.db in
  statusCode (response o) = 200
  /\ payload (response o) = Budget_toJSON Demo.groceries
  /\ owners (service_calls o) = ["u-jane"].
Proof. vm_compute. auto. Qed.

Example jane_cannot_read_johns_budget :
  let o := Demo.app
             (Demo.request GET
                           ["budgets"; "0b9e1f3a-1c2d-4e5f-8a9b-0c1d2e3f4a5b"]
                           Demo.as_jane JNull) Demo.db in
  statusCode (response o) = 404
  /\ owners (service_calls o) = ["u-jane"].
Proof. vm_compute. auto. Qed.

(** ** Serving an auth route *)

Section AuthRoutes.
Variables S CreateBudgetDto UpdateBudgetDto : Type.
Variable w : Wiring S CreateBudgetDto UpdateBudgetDto.
Variable svc : Services S CreateBudgetDto UpdateBudgetDto.

Lemma serve_register q s params :
  router q = Some (AuthRoute AuthController.Register, params) ->
  serve w svc q s
  = match toCreateUserDto w (req_body q) with
    | inl t => rejected Pipes t s
    | inr dto =>
        {| response := reply POST JwtAndUser_toJSON
                             (fst (authService svc
                                     (AuthService.registerUser dto) s));
           stage := Handler;
           state := snd (authService svc (AuthService.registerUser dto) s);
           service_calls :=
             [AuthCall (logged (AuthService.registerUser dto))] |}
    end.
Proof.
  intros Hr. unfold serve. rewrite Hr. simpl.
  destruct (toCreateUserDto w (req_body q)) as [t | dto]; simpl.
  - reflexivity.
  - apply respond_pmap_await.
Qed.

Lemma serve_login q s params :
  router q = Some (AuthRoute AuthController.Login, params) ->
  serve w svc q s
  = match LocalAuthGuard w s q with
    | inl t => rejected Guards t s
    | inr u =>
        let op := AuthService.generateJwtToken (Some u) in
        {| response := reply POST JwtAndUser_toJSON
                             (fst (authService svc op s));
           stage := Handler;
           state := snd (authService svc op s);
           service_calls := [AuthCall (logged op)] |}
    end.
Proof.
  intros Hr. unfold serve. rewrite Hr. simpl.
  destruct (LocalAuthGuard w s q) as [t | u]; simpl.
  - reflexivity.
  - unfold respond. simpl.
    destruct (authService svc (AuthService.generateJwtToken (Some u)) s)
      as [[t | x] s']; reflexivity.
Qed.

(** Whenever a handler is invoked, one service call is logged. *)
Lemma handler_makes_one_call q s :
  stage (serve w svc q s) = Handler ->
  length (service_calls (serve w svc q s)) = 1%nat.
Proof.
  destruct (router q) as [[[r | r] params] |] eqn:Hr.
  - destruct r.
    + rewrite (serve_register _ _ Hr).
      destruct (toCreateUserDto w (req_body q)); [discriminate | reflexivity].
    + rewrite (serve_login _ _ Hr).
      destruct (LocalAuthGuard w s q); [discriminate | reflexivity].
  - destruct (JwtAuthGuard w s q) as [t | p] eqn:Hg.
    + rewrite (serve_budgets_unauthorized w svc _ _ Hr Hg). discriminate.
    + destruct (serve_budgets_cases w svc _ _ Hr Hg)
        as [[t ->] | (X & op & f & _ & ->)]; [discriminate | reflexivity].
  - unfold serve. rewrite Hr. discriminate.
Qed.

End AuthRoutes.

(** ** The controllers only delegate *)

(** C9.  Every handler of [BudgetsController] and [AuthController] makes
    exactly one call to its injected service and returns that call's result
    unchanged, a value or a thrown error alike: run against any
    implementation of the service, the handler behaves as the service
    method at the shifted argument list, the owner argument being the [sub]
    of [req.user].  And whenever the application invokes a handler, exactly
    one service call is made. *)
Theorem handlers_delegate
        S CreateBudgetDto UpdateBudgetDto
        (auth : Impl AuthService.Op S)
        (budgets : Impl (BudgetsService.Op CreateBudgetDto UpdateBudgetDto) S)
        (w : Wiring S CreateBudgetDto UpdateBudgetDto)
        (q : RawRequest) (p : IPayloadToken) (u : option User)
        (createUserDto : CreateUserDto)
        (createBudgetDto : CreateBudgetDto)
        (updateBudgetDto : UpdateBudgetDto)
        (filterOptions : FilterBudgetDto) (id : string) :
  let req := {| raw := q; user := Some p |} in
  delegates auth (AuthController.createUser createUserDto)
            (AuthService.registerUser createUserDto)
  /\ delegates auth (AuthController.login {| raw := q; user := u |})
               (AuthService.generateJwtToken u)
  /\ delegates budgets (BudgetsController.create createBudgetDto req)
               (BudgetsService.create (sub p) createBudgetDto)
  /\ delegates budgets (BudgetsController.findAll req filterOptions)
               (BudgetsService.findAll (sub p) filterOptions)
  /\ delegates budgets (BudgetsController.findOne id req)
               (BudgetsService.findOne id (sub p))
  /\ delegates budgets (BudgetsController.update id updateBudgetDto req)
               (BudgetsService.update id (sub p) updateBudgetDto)
  /\ delegates budgets (BudgetsController.remove id req)
               (BudgetsService.remove id (sub p))
  /\ delegates budgets (BudgetsController.getBalance id req)
               (BudgetsService.getBalance id (sub p))
  /\ forall s,
      let o := serve w {| authService := auth; budgetsService := budgets |}
                     q s in
      stage o = Handler -> length (service_calls o) = 1%nat.
Proof.
  intro req.
  split; [exact (await_delegates auth _) |].
  split.
  { intro s. simpl.
    destruct (auth _ (AuthService.generateJwtToken u) s) as [[t | x] s'];
      reflexivity. }
  do 6 (split; [exact (await_delegates budgets _) |]).
  intros s. apply handler_makes_one_call.
Qed.


(** ** The owner scope comes from the token alone *)

Lemma router_with_authorization a q :
  router (with_authorization a q) = router q.
Proof. reflexivity. Qed.

(** C10.  The owner passed to [BudgetsService] comes from the verified
    payload only.  For a request to a budgets route that the guard admits
    with payload [p]: every call is scoped to [sub p], whatever the body,
    the query and the path; the same request under another token, admitted
    with payload [p'], goes as far and makes the same calls rescoped to
    [sub p'], so that two subjects give two owner scopes; and any other
    request of the same subject, with any other body, query or path, is
    scoped to the same owner. *)
Theorem owner_scope_comes_from_token
        S CreateBudgetDto UpdateBudgetDto
        (w : Wiring S CreateBudgetDto UpdateBudgetDto)
        (svc : Services S CreateBudgetDto UpdateBudgetDto)
        (q : RawRequest) (s : S) r params (p : IPayloadToken) :
  router q = Some (BudgetsRoute r, params) ->
  JwtAuthGuard w s q = inr p ->
  let o := serve w svc q s in
  Forall (eq (sub p)) (owners (service_calls o))
  /\ (forall a p',
         JwtAuthGuard w s (with_authorization a q) = inr p' ->
         let o' := serve w svc (with_authorization a q) s in
         stage o' = stage o
         /\ service_calls o' = map (rescope (sub p')) (service_calls o)
         /\ (stage o = Handler ->
             owners (service_calls o) = [sub p]
             /\ owners (service_calls o') = [sub p']
             /\ (sub p <> sub p' ->
                 owners (service_calls o) <> owners (service_calls o'))))
  /\ (forall q2 r2 params2 p2,
         router q2 = Some (BudgetsRoute r2, params2) ->
         JwtAuthGuard w s q2 = inr p2 ->
         sub p2 = sub p ->
         Forall (eq (sub p)) (owners (service_calls (serve w svc q2 s)))).
Proof.
  intros Hr Hg o.
  assert (Hall : forall q2 r2 params2 p2,
             router q2 = Some (BudgetsRoute r2, params2) ->
             JwtAuthGuard w s q2 = inr p2 ->
             Forall (eq (sub p2)) (owners (service_calls (serve w svc q2 s)))).
  { intros q2 r2 params2 p2 Hr2 Hg2.
    destruct (serve_budgets_cases w svc _ _ Hr2 Hg2)
      as [[t ->] | (X & op & f & Ho & ->)]; simpl.
    - constructor.
    - rewrite Ho. repeat constructor. }
  split; [exact (Hall _ _ _ _ Hr Hg) |]. split.
  - intros a p' Hg' o'. subst o o'.
    assert (Hr' : router (with_authorization a q)
                  = Some (BudgetsRoute r, params))
      by (rewrite router_with_authorization; exact Hr).
    rewrite (serve_budgets_admitted w svc _ _ Hr Hg).
    rewrite (serve_budgets_admitted w svc _ _ Hr' Hg').
    destruct (invoke_cases w r params q)
      as [[t Ht] | (X & op & f & Ho & Hw & Hi)].
    + rewrite !Ht by reflexivity. simpl. repeat split; discriminate.
    + rewrite !Hi by reflexivity. rewrite !respond_pmap_await.
      cbn [stage service_calls map rescope logged owners].
      rewrite Hw, !Ho. repeat split; congruence.
  - intros q2 r2 params2 p2 Hr2 Hg2 Hs. rewrite <- Hs.
    exact (Hall _ _ _ _ Hr2 Hg2).
Qed.

Lemma owner_scope_comes_from_token_witness :
  let w := spec_wiring Demo.infra in
  let svc := spec_services Demo.infra in
  let s := Demo.db in
  let p := {| sub := "u-jane" |} in
  let q := Demo.request GET ["budgets"] Demo.as_jane JNull in
  (router q = Some (BudgetsRoute BudgetsController.FindAll, [])
   /\ JwtAuthGuard w s q = inr p)
  /\ let o := serve w svc q s in
     Forall (eq (sub p)) (owners (service_calls o))
     /\ (forall a p',
            JwtAuthGuard w s (with_authorization a q) = inr p' ->
            let o' := serve w svc (with_authorization a q) s in
            stage o' = stage o
            /\ service_calls o' = map (rescope (sub p')) (service_calls o)
            /\ (stage o = Handler ->
                owners (service_calls o) = [sub p]
                /\ owners (service_calls o') = [sub p']
                /\ (sub p <> sub p' ->
                    owners (service_calls o) <> owners (service_calls o'))))
     /\ (forall q2 r2 params2 p2,
            router q2 = Some (BudgetsRoute r2, params2) ->
            JwtAuthGuard w s q2 = inr p2 ->
            sub p2 = sub p ->
            Forall (eq (sub p)) (owners (service_calls (serve w svc q2 s)))).
Proof.
  intros w svc s p q.
  split; [split; reflexivity |].
  apply (owner_scope_comes_from_token
           w svc q s (r := BudgetsController.FindAll) (params := []) (p := p));
    reflexivity.
Defined.

Example two_subjects_two_scopes :
  let q := Demo.request GET ["budgets"] Demo.as_jane JNull in
  owners (service_calls (Demo.app q Demo.db)) = ["u-jane"]
  /\ owners (service_calls
               (Demo.app (with_authorization (Some "Bearer jwt.u-john") q)
                         Demo.db)) = ["u-john"].
Proof. vm_compute. auto. Qed.

(** ** Listing budgets *)

Lemma route_findAll q :
  req_method q = GET -> req_path q = ["budgets"] ->
  router q = Some (BudgetsRoute BudgetsController.FindAll, []).
Proof. intros Hm Hp. unfold router. rewrite Hm, Hp. reflexivity. Qed.

(** C7.  GET /budgets documents the three query filters category, month and
    status, all optional; for a request the guard admits with payload [p]
    and whose query gives the filter options [f] (any of the three present
    or absent), the handler makes the one call [findAll (sub p) f], the
    options forwarded unchanged, and the response is what the call gives:
    the array of the budgets it resolves with, with status 200. *)
Theorem findAll_forwards_filters
        S CreateBudgetDto UpdateBudgetDto
        (w : Wiring S CreateBudgetDto UpdateBudgetDto)
        (svc : Services S CreateBudgetDto UpdateBudgetDto)
        (q : RawRequest) (s : S) (p : IPayloadToken) (f : FilterBudgetDto) :
  req_method q = GET ->
  req_path q = ["budgets"] ->
  JwtAuthGuard w s q = inr p ->
  toFilterBudgetDto w (req_query q) = inr f ->
  let o := serve w svc q s in
  let call := BudgetsService.findAll (sub p) f in
  map query_name (BudgetsController.api_queries BudgetsController.FindAll)
  = ["category"; "month"; "status"]
  /\ forallb (fun a => negb (required a))
             (BudgetsController.api_queries BudgetsController.FindAll) = true
  /\ service_calls o = [BudgetsCall (logged call)]
  /\ state o = snd (budgetsService svc call s)
  /\ response o
     = reply GET (fun l => JArr (map Budget_toJSON l))
             (fst (budgetsService svc call s))
  /\ (forall l, fst (budgetsService svc call s) = inr l ->
                response o
                = {| statusCode := 200;
                     payload := JArr (map Budget_toJSON l) |}).
Proof.
  intros Hm Hp Hg Hf o call. subst o.
  rewrite (serve_budgets_admitted w svc _ _ (route_findAll _ Hm Hp) Hg).
  cbn [BudgetsController.invoke raw]. rewrite Hf.
  cbn [rbind ok BudgetsController.http_method].
  change (BudgetsController.findAll {| raw := q; user := Some p |} f)
    with (await call).
  rewrite respond_pmap_await. cbn [service_calls state response].
  repeat split. intros l Hl. rewrite Hl. reflexivity.
Qed.

Lemma findAll_forwards_filters_witness :
  let w := spec_wiring Demo.infra in
  let svc := spec_services Demo.infra in
  let s := Demo.db in
  let p := {| sub := "u-jane" |} in
  let f := {| category := None; month := None; status := None |} in
  let q := Demo.request GET ["budgets"] Demo.as_jane JNull in
  (req_method q = GET /\ req_path q = ["budgets"]
   /\ JwtAuthGuard w s q = inr p
   /\ toFilterBudgetDto w (req_query q) = inr f)
  /\ let o := serve w svc q s in
     let call := BudgetsService.findAll (sub p) f in
     map query_name (BudgetsController.api_queries BudgetsController.FindAll)
     = ["category"; "month"; "status"]
     /\ forallb (fun a => negb (required a))
                (BudgetsController.api_queries BudgetsController.FindAll)
        = true
     /\ service_calls o = [BudgetsCall (logged call)]
     /\ state o = snd (budgetsService svc call s)
     /\ response o
        = reply GET (fun l => JArr (map Budget_toJSON l))
                (fst (budgetsService svc call s))
     /\ (forall l, fst (budgetsService svc call s) = inr l ->
                   response o
                   = {| statusCode := 200;
                        payload := JArr (map Budget_toJSON l) |}).
Proof.
  intros w svc s p f q.
  split; [repeat split |].
  apply (findAll_forwards_filters w svc q s (p := p) (f := f)); reflexivity.
Defined.

Example jane_filters_her_budgets :
  let o := Demo.app (Demo.search Demo.as_jane
                                 [("month", "0"); ("status", "active")])
                    Demo.db in
  service_calls o
  = [BudgetsCall
       (logged (BudgetsService.findAll
                  "u-jane"
                  {| category := None; month := Some 0;
                     status := Some active |}))]
  /\ response o
     = {| statusCode := 200;
          payload := JArr [Budget_toJSON Demo.groceries] |}.
Proof. vm_compute. auto. Qed.

Example no_budget_in_december :
  payload (response (Demo.app (Demo.search Demo.as_jane [("month", "11")])
                              Demo.db)) = JArr [].
Proof. vm_compute. reflexivity. Qed.

Example jane_lists_her_budgets :
  response (Demo.app (Demo.request GET ["budgets"] Demo.as_jane JNull) Demo.db)
  = {| statusCode := 200; payload := JArr [Budget_toJSON Demo.groceries] |}.
Proof. vm_compute. reflexivity. Qed.

(** ** Routes that take the id of a budget *)

Lemma route_findOne q id :
  req_method q = GET -> req_path q = ["budgets"; id] ->
  router q = Some (BudgetsRoute BudgetsController.FindOne, [("id", id)]).
Proof. intros Hm Hp. unfold router. rewrite Hm, Hp. reflexivity. Qed.

Lemma route_update q id :
  req_method q = PATCH -> req_path q = ["budgets"; id] ->
  router q = Some (BudgetsRoute BudgetsController.Update, [("id", id)]).
Proof. intros Hm Hp. unfold router. rewrite Hm, Hp. reflexivity. Qed.

Lemma route_remove q id :
  req_method q = DELETE -> req_path q = ["budgets"; id] ->
  router q = Some (BudgetsRoute BudgetsController.Remove, [("id", id)]).
Proof. intros Hm Hp. unfold router. rewrite Hm, Hp. reflexivity. Qed.

Lemma route_getBalance q id :
  req_method q = GET -> req_path q = ["budgets"; id; "balance"] ->
  router q = Some (BudgetsRoute BudgetsController.GetBalance, [("id", id)]).
Proof. intros Hm Hp. unfold router. rewrite Hm, Hp. reflexivity. Qed.

Lemma route_register q :
  req_method q = POST -> req_path q = ["auth"; "register"] ->
  router q = Some (AuthRoute AuthController.Register, []).
Proof. intros Hm Hp. unfold router. rewrite Hm, Hp. reflexivity. Qed.

Lemma route_login q :
  req_method q = POST -> req_path q = ["auth"; "login"] ->
  router q = Some (AuthRoute AuthController.Login, []).
Proof. intros Hm Hp. unfold router. rewrite Hm, Hp. reflexivity. Qed.

Lemma ParseUUIDPipe_accepts id :
  isUUID id = true -> ParseUUIDPipe id = inr id.
Proof. intro H. unfold ParseUUIDPipe. rewrite H. reflexivity. Qed.

Lemma ParseUUIDPipe_rejects id :
  isUUID id = false ->
  ParseUUIDPipe id
  = inl (BadRequestException "Validation failed (uuid is expected)").
Proof. intro H. unfold ParseUUIDPipe. rewrite H. reflexivity. Qed.

Section BudgetsById.
Variables S CreateBudgetDto UpdateBudgetDto : Type.
Variable w : Wiring S CreateBudgetDto UpdateBudgetDto.
Variable svc : Services S CreateBudgetDto UpdateBudgetDto.

(** The four routes whose handler takes [@Param('id', ParseUUIDPipe)]. *)
Lemma invoke_malformed_id r id req :
  In r [BudgetsController.FindOne; BudgetsController.Update;
        BudgetsController.Remove; BudgetsController.GetBalance] ->
  isUUID id = false ->
  BudgetsController.invoke w r [("id", id)] req
  = inl (BadRequestException "Validation failed (uuid is expected)").
Proof.
  intros Hin Hid.
  destruct Hin as [<- | [<- | [<- | [<- | []]]]];
    cbn [BudgetsController.invoke];
    change (param "id" [("id", id)]) with id;
    rewrite (ParseUUIDPipe_rejects _ Hid); reflexivity.
Qed.

Lemma serve_malformed_id q s r id p :
  router q = Some (BudgetsRoute r, [("id", id)]) ->
  In r [BudgetsController.FindOne; BudgetsController.Update;
        BudgetsController.Remove; BudgetsController.GetBalance] ->
  JwtAuthGuard w s q = inr p ->
  isUUID id = false ->
  serve w svc q s
  = rejected Pipes
             (BadRequestException "Validation failed (uuid is expected)") s.
Proof.
  intros Hr Hin Hg Hid.
  rewrite (serve_budgets_admitted w svc _ _ Hr Hg).
  rewrite (invoke_malformed_id _ _ Hin Hid). reflexivity.
Qed.

(** With a well-formed id the handler is invoked and makes its call for
    this id and the caller. *)
Lemma serve_findOne q s id p :
  req_method q = GET -> req_path q = ["budgets"; id] ->
  JwtAuthGuard w s q = inr p ->
  isUUID id = true ->
  let op := BudgetsService.findOne id (sub p) in
  serve w svc q s
  = {| response := reply GET Budget_toJSON (fst (budgetsService svc op s));
       stage := Handler;
       state := snd (budgetsService svc op s);
       service_calls := [BudgetsCall (logged op)] |}.
Proof.
  intros Hm Hp Hg Hid op.
  rewrite (serve_budgets_admitted w svc _ _ (route_findOne _ Hm Hp) Hg).
  cbn [BudgetsController.invoke]. change (param "id" [("id", id)]) with id.
  rewrite (ParseUUIDPipe_accepts _ Hid).
  exact (respond_pmap_await _ _ _ _ op s).
Qed.

Lemma serve_remove q s id p :
  req_method q = DELETE -> req_path q = ["budgets"; id] ->
  JwtAuthGuard w s q = inr p ->
  isUUID id = true ->
  let op := BudgetsService.remove id (sub p) in
  serve w svc q s
  = {| response := reply DELETE RemoveResult_toJSON
                         (fst (budgetsService svc op s));
       stage := Handler;
       state := snd (budgetsService svc op s);
       service_calls := [BudgetsCall (logged op)] |}.
Proof.
  intros Hm Hp Hg Hid op.
  rewrite (serve_budgets_admitted w svc _ _ (route_remove _ Hm Hp) Hg).
  cbn [BudgetsController.invoke]. change (param "id" [("id", id)]) with id.
  rewrite (ParseUUIDPipe_accepts _ Hid).
  exact (respond_pmap_await _ _ _ _ op s).
Qed.

Lemma serve_getBalance q s id p :
  req_method q = GET -> req_path q = ["budgets"; id; "balance"] ->
  JwtAuthGuard w s q = inr p ->
  isUUID id = true ->
  let op := BudgetsService.getBalance id (sub p) in
  serve w svc q s
  = {| response := reply GET IBudgetBalance_toJSON
                         (fst (budgetsService svc op s));
       stage := Handler;
       state := snd (budgetsService svc op s);
       service_calls := [BudgetsCall (logged op)] |}.
Proof.
  intros Hm Hp Hg Hid op.
  rewrite (serve_budgets_admitted w svc _ _ (route_getBalance _ Hm Hp) Hg).
  cbn [BudgetsController.invoke]. change (param "id" [("id", id)]) with id.
  rewrite (ParseUUIDPipe_accepts _ Hid).
  exact (respond_pmap_await _ _ _ _ op s).
Qed.

End BudgetsById.

(** ** The balance of a budget *)

(** C2.  For a budget with initial amount [i] and spent amount [s] that
    GET /budgets/:id/balance answers for, the response carries
    percentage_spent_amount = s / i * 100, remaining_amount = i - s and
    percentage_remaining_amount = remaining_amount / i * 100. *)
Theorem balance_percentages
        CreateBudgetDto UpdateBudgetDto
        (w : Wiring Db CreateBudgetDto UpdateBudgetDto)
        (infra : Infra CreateBudgetDto UpdateBudgetDto)
        (q : RawRequest) (db : Db) (id : string) (p : IPayloadToken)
        (b : Budget) :
  req_method q = GET ->
  req_path q = ["budgets"; id; "balance"] ->
  JwtAuthGuard w db q = inr p ->
  isUUID id = true ->
  find_budget id (sub p) db = Some b ->
  let i := budget_amount b in
  let s := budget_spent b in
  exists bal,
    response (serve w (spec_services infra) q db)
    = {| statusCode := 200; payload := IBudgetBalance_toJSON bal |}
    /\ initial_amount bal = i
    /\ spent_amount bal = s
    /\ percentage_spent_amount bal = (s / i * 100)%Q
    /\ remaining_amount bal = (i - s)%Q
    /\ percentage_remaining_amount bal
       = (remaining_amount bal / i * 100)%Q.
Proof.
  intros Hm Hp Hg Hid Hb i s.
  rewrite (serve_getBalance w (spec_services infra) _ _ Hm Hp Hg Hid).
  cbn [response budgetsService spec_services budgetsService_spec].
  unfold getBalance_spec. rewrite Hb.
  exists (balance b). repeat split.
Qed.

Lemma balance_percentages_witness :
  let w := spec_wiring Demo.infra in
  let db := Demo.db in
  let id := "b2c6e182-6aef-4c38-8d26-9153d7ebc7d2" in
  let p := {| sub := "u-jane" |} in
  let b := Demo.groceries in
  let q := Demo.request GET ["budgets"; id; "balance"] Demo.as_jane JNull in
  (req_method q = GET
   /\ req_path q = ["budgets"; id; "balance"]
   /\ JwtAuthGuard w db q = inr p
   /\ isUUID id = true
   /\ find_budget id (sub p) db = Some b)
  /\ exists bal,
      response (serve w (spec_services Demo.infra) q db)
      = {| statusCode := 200; payload := IBudgetBalance_toJSON bal |}
      /\ initial_amount bal = budget_amount b
      /\ spent_amount bal = budget_spent b
      /\ percentage_spent_amount bal
         = (budget_spent b / budget_amount b * 100)%Q
      /\ remaining_amount bal = (budget_amount b - budget_spent b)%Q
      /\ percentage_remaining_amount bal
         = (remaining_amount bal / budget_amount b * 100)%Q.
Proof.
  intros w db id p b q.
  split; [repeat split |].
  apply (balance_percentages w Demo.infra q db (id := id) (p := p) (b := b));
    reflexivity.
Defined.

(** The example the controller documents: 1000 of which 200 are spent. *)
Example balance_documented_example :
  let bal := balance Demo.groceries in
  (percentage_spent_amount bal == 20)%Q
  /\ (remaining_amount bal == 800)%Q
  /\ (percentage_remaining_amount bal == 80)%Q.
Proof. repeat split. Qed.

(** The two percentages of a budget with a non-zero amount add up to 100. *)
Lemma balance_percentages_sum b :
  ~ (budget_amount b == 0)%Q ->
  (percentage_spent_amount (balance b)
   + percentage_remaining_amount (balance b) == 100)%Q.
Proof.
  intro Hi. unfold balance. simpl. field. exact Hi.
Qed.

(** C3 as stated is refuted by an id that is not a UUID: the caller is
    authenticated and has no budget of that id, and the answer is 400, from
    the pipe, and not 404. *)
Lemma getBalance_malformed_id_is_400 :
  let q := Demo.request GET ["budgets"; "abc"; "balance"] Demo.as_jane JNull in
  let o := Demo.app q Demo.db in
  JwtAuthGuard_spec Demo.infra Demo.db q = inr {| sub := "u-jane" |}
  /\ find_budget "abc" "u-jane" Demo.db = None
  /\ statusCode (response o) = 400
  /\ statusCode (response o) <> 404
  /\ stage o = Pipes.
Proof. vm_compute. repeat split; discriminate. Qed.

(** C3, amended.  For every authenticated request to
    GET /budgets/:id/balance whose id is a well-formed UUID: when a budget
    with that id exists for the caller the response is an object with
    exactly the fields initial_amount, spent_amount,
    percentage_spent_amount, remaining_amount and
    percentage_remaining_amount, and when that budget is absent the request
    fails with 404. *)
Theorem getBalance_fields_or_404
        CreateBudgetDto UpdateBudgetDto
        (w : Wiring Db CreateBudgetDto UpdateBudgetDto)
        (infra : Infra CreateBudgetDto UpdateBudgetDto)
        (q : RawRequest) (db : Db) (id : string) (p : IPayloadToken) :
  req_method q = GET ->
  req_path q = ["budgets"; id; "balance"] ->
  JwtAuthGuard w db q = inr p ->
  isUUID id = true ->
  let o := serve w (spec_services infra) q db in
  (forall b, find_budget id (sub p) db = Some b ->
             statusCode (response o) = 200
             /\ keys (payload (response o))
                = ["initial_amount"; "spent_amount";
                   "percentage_spent_amount"; "remaining_amount";
                   "percentage_remaining_amount"])
  /\ (find_budget id (sub p) db = None -> statusCode (response o) = 404).
Proof.
  intros Hm Hp Hg Hid o. subst o.
  rewrite (serve_getBalance w (spec_services infra) _ _ Hm Hp Hg Hid).
  cbn [response budgetsService spec_services budgetsService_spec].
  unfold getBalance_spec.
  split.
  - intros b Hb. rewrite Hb. split; reflexivity.
  - intros Hb. rewrite Hb. reflexivity.
Qed.

Lemma getBalance_fields_or_404_witness :
  let w := spec_wiring Demo.infra in
  let db := Demo.db in
  let id := "b2c6e182-6aef-4c38-8d26-9153d7ebc7d2" in
  let p := {| sub := "u-jane" |} in
  let q := Demo.request GET ["budgets"; id; "balance"] Demo.as_jane JNull in
  (req_method q = GET
   /\ req_path q = ["budgets"; id; "balance"]
   /\ JwtAuthGuard w db q = inr p
   /\ isUUID id = true)
  /\ let o := serve w (spec_services Demo.infra) q db in
     (forall b, find_budget id (sub p) db = Some b ->
                statusCode (response o) = 200
                /\ keys (payload (response o))
                   = ["initial_amount"; "spent_amount";
                      "percentage_spent_amount"; "remaining_amount";
                      "percentage_remaining_amount"])
     /\ (find_budget id (sub p) db = None -> statusCode (response o) = 404).
Proof.
  intros w db id p q.
  split; [repeat split |].
  apply (getBalance_fields_or_404 w Demo.infra q db (id := id) (p := p));
    reflexivity.
Defined.

Example balance_of_anothers_budget_is_404 :
  statusCode
    (response
       (Demo.app (Demo.request
                    GET ["budgets"; "0b9e1f3a-1c2d-4e5f-8a9b-0c1d2e3f4a5b";
                         "balance"] Demo.as_jane JNull) Demo.db)) = 404.
Proof. vm_compute. reflexivity. Qed.

(** ** Malformed ids *)

(** C6 as stated is refuted by a request without a token: its id is not a
    UUID, and it is the guard that rejects it, with 401; the pipe is not
    reached. *)
Lemma malformed_id_unauthenticated_is_401 :
  let q := Demo.request GET ["budgets"; "abc"] None JNull in
  let o := Demo.app q Demo.db in
  router q = Some (BudgetsRoute BudgetsController.FindOne, [("id", "abc")])
  /\ isUUID "abc" = false
  /\ statusCode (response o) = 401
  /\ statusCode (response o) <> 400
  /\ stage o = Guards.
Proof. vm_compute. repeat split; discriminate. Qed.

(** C6, amended.  For every request the guard admits to GET /budgets/:id,
    and likewise PATCH /budgets/:id, DELETE /budgets/:id and
    GET /budgets/:id/balance: when the id is not a valid UUID the request is
    rejected by [ParseUUIDPipe] with 400, before the service is called and
    whatever the service is; and for a well-formed id GET /budgets/:id
    makes the one call [findOne id sub] and answers the budget of that id
    of the caller, or 404 when the caller has no such budget. *)
Theorem malformed_id_rejected_by_pipe
        CreateBudgetDto UpdateBudgetDto
        (w : Wiring Db CreateBudgetDto UpdateBudgetDto)
        (svc : Services Db CreateBudgetDto UpdateBudgetDto)
        (infra : Infra CreateBudgetDto UpdateBudgetDto)
        (q : RawRequest) (db : Db) (id : string) (p : IPayloadToken) :
  (req_method q = GET /\ req_path q = ["budgets"; id])
  \/ (req_method q = PATCH /\ req_path q = ["budgets"; id])
  \/ (req_method q = DELETE /\ req_path q = ["budgets"; id])
  \/ (req_method q = GET /\ req_path q = ["budgets"; id; "balance"]) ->
  JwtAuthGuard w db q = inr p ->
  (isUUID id = false ->
   let o := serve w svc q db in
   statusCode (response o) = 400
   /\ o = rejected Pipes (BadRequestException
                            "Validation failed (uuid is expected)") db
   /\ stage o = Pipes
   /\ service_calls o = []
   /\ state o = db)
  /\ (isUUID id = true ->
      req_method q = GET -> req_path q = ["budgets"; id] ->
      let o := serve w (spec_services infra) q db in
      service_calls o
      = [BudgetsCall (logged (BudgetsService.findOne id (sub p)))]
      /\ (forall b, find_budget id (sub p) db = Some b ->
                    response o
                    = {| statusCode := 200; payload := Budget_toJSON b |})
      /\ (find_budget id (sub p) db = None ->
          statusCode (response o) = 404)).
Proof.
  intros Hroute Hg. split.
  - intros Hid o.
    assert (Ho : o = rejected Pipes
                              (BadRequestException
                                 "Validation failed (uuid is expected)") db).
    { subst o.
      destruct Hroute as [[Hm Hp] | [[Hm Hp] | [[Hm Hp] | [Hm Hp]]]].
      - apply (@serve_malformed_id _ _ _ w svc q db _ id p
                 (route_findOne _ Hm Hp)); simpl; auto.
      - apply (@serve_malformed_id _ _ _ w svc q db _ id p
                 (route_update _ Hm Hp)); simpl; auto.
      - apply (@serve_malformed_id _ _ _ w svc q db _ id p
                 (route_remove _ Hm Hp)); simpl; auto.
      - apply (@serve_malformed_id _ _ _ w svc q db _ id p
                 (route_getBalance _ Hm Hp)); simpl; auto 6. }
    rewrite Ho. repeat split.
  - intros Hid Hm Hp o. subst o.
    rewrite (serve_findOne w (spec_services infra) _ _ Hm Hp Hg Hid).
    cbn [response service_calls budgetsService spec_services
         budgetsService_spec].
    unfold findOne_spec. split; [reflexivity |]. split.
    + intros b Hb. rewrite Hb. reflexivity.
    + intros Hb. rewrite Hb. reflexivity.
Qed.

Lemma malformed_id_rejected_by_pipe_witness :
  let w := spec_wiring Demo.infra in
  let svc := spec_services Demo.infra in
  let db := Demo.db in
  let id := "abc" in
  let p := {| sub := "u-jane" |} in
  let q := Demo.request DELETE ["budgets"; id] Demo.as_jane JNull in
  (((req_method q = GET /\ req_path q = ["budgets"; id])
    \/ (req_method q = PATCH /\ req_path q = ["budgets"; id])
    \/ (req_method q = DELETE /\ req_path q = ["budgets"; id])
    \/ (req_method q = GET /\ req_path q = ["budgets"; id; "balance"]))
   /\ JwtAuthGuard w db q = inr p)
  /\ (isUUID id = false ->
      let o := serve w svc q db in
      statusCode (response o) = 400
      /\ o = rejected Pipes (BadRequestException
                               "Validation failed (uuid is expected)") db
      /\ stage o = Pipes
      /\ service_calls o = []
      /\ state o = db)
  /\ (isUUID id = true ->
      req_method q = GET -> req_path q = ["budgets"; id] ->
      let o := serve w (spec_services Demo.infra) q db in
      service_calls o
      = [BudgetsCall (logged (BudgetsService.findOne id (sub p)))]
      /\ (forall b, find_budget id (sub p) db = Some b ->
                    response o
                    = {| statusCode := 200; payload := Budget_toJSON b |})
      /\ (find_budget id (sub p) db = None ->
          statusCode (response o) = 404)).
Proof.
  intros w svc db id p q.
  split; [split; [right; right; left; split |]; reflexivity |].
  apply (malformed_id_rejected_by_pipe w svc Demo.infra q db (id := id)
                                       (p := p)).
  - right; right; left; split; reflexivity.
  - reflexivity.
Defined.

Example malformed_id_on_each_route :
  map (fun mp =>
         let o := Demo.app (Demo.request (fst mp) (snd mp) Demo.as_jane JNull)
                           Demo.db in
         (statusCode (response o), stage o, length (service_calls o)))
      [ (GET, ["budgets"; "42"]); (PATCH, ["budgets"; "42"]);
        (DELETE, ["budgets"; "42"]); (GET, ["budgets"; "42"; "balance"]) ]
  = [ (400, Pipes, 0%nat); (400, Pipes, 0%nat);
      (400, Pipes, 0%nat); (400, Pipes, 0%nat) ].
Proof. vm_compute. reflexivity. Qed.

(** ** Deleting a budget *)

(** C8.  For every authenticated request to DELETE /budgets/:id with a
    valid UUID id: when the deletion succeeds the response is an object
    with a message field, and when it fails the answer is 500; so is the
    answer to any error of the service that is not an HTTP exception; and
    the route documents 500 and no 404. *)
Theorem remove_message_or_500
        CreateBudgetDto UpdateBudgetDto
        (w : Wiring Db CreateBudgetDto UpdateBudgetDto)
        (infra : Infra CreateBudgetDto UpdateBudgetDto)
        (q : RawRequest) (db : Db) (id : string) (p : IPayloadToken) :
  req_method q = DELETE ->
  req_path q = ["budgets"; id] ->
  JwtAuthGuard w db q = inr p ->
  isUUID id = true ->
  let o := serve w (spec_services infra) q db in
  (forall db', db_delete infra id (sub p) db = Some db' ->
               statusCode (response o) = 200
               /\ keys (payload (response o)) = ["message"]
               /\ state o = db')
  /\ (db_delete infra id (sub p) db = None ->
      statusCode (response o) = 500 /\ state o = db)
  /\ (forall (svc : Services Db CreateBudgetDto UpdateBudgetDto) n m db',
         budgetsService svc (BudgetsService.remove id (sub p)) db
         = (inl (JsError n m), db') ->
         statusCode (response (serve w svc q db)) = 500)
  /\ In 500 (BudgetsController.documented BudgetsController.Remove)
  /\ ~ In 404 (BudgetsController.documented BudgetsController.Remove).
Proof.
  intros Hm Hp Hg Hid o. subst o.
  rewrite (serve_remove w (spec_services infra) _ _ Hm Hp Hg Hid).
  cbn [response state budgetsService spec_services budgetsService_spec].
  unfold remove_spec.
  split; [| split; [| split; [| split]]].
  - intros db' Hd. rewrite Hd. repeat split.
  - intros Hd. rewrite Hd. split; reflexivity.
  - intros svc n m db' Hs.
    rewrite (serve_remove w svc _ _ Hm Hp Hg Hid).
    cbn [response]. rewrite Hs. reflexivity.
  - simpl. auto.
  - simpl. intros [H | [H | [H | []]]]; discriminate.
Qed.

Lemma remove_message_or_500_witness :
  let w := spec_wiring Demo.infra in
  let db := Demo.db in
  let id := "b2c6e182-6aef-4c38-8d26-9153d7ebc7d2" in
  let p := {| sub := "u-jane" |} in
  let q := Demo.request DELETE ["budgets"; id] Demo.as_jane JNull in
  (req_method q = DELETE
   /\ req_path q = ["budgets"; id]
   /\ JwtAuthGuard w db q = inr p
   /\ isUUID id = true)
  /\ let o := serve w (spec_services Demo.infra) q db in
     (forall db', db_delete Demo.infra id (sub p) db = Some db' ->
                  statusCode (response o) = 200
                  /\ keys (payload (response o)) = ["message"]
                  /\ state o = db')
     /\ (db_delete Demo.infra id (sub p) db = None ->
         statusCode (response o) = 500 /\ state o = db)
     /\ (forall (svc : Services Db Json Json) n m db',
            budgetsService svc (BudgetsService.remove id (sub p)) db
            = (inl (JsError n m), db') ->
            statusCode (response (serve w svc q db)) = 500)
     /\ In 500 (BudgetsController.documented BudgetsController.Remove)
     /\ ~ In 404 (BudgetsController.documented BudgetsController.Remove).
Proof.
  intros w db id p q.
  split; [repeat split |].
  apply (remove_message_or_500 w Demo.infra q db (id := id) (p := p));
    reflexivity.
Defined.

Example jane_deletes_her_budget :
  let o := Demo.app
             (Demo.request DELETE
                           ["budgets"; "b2c6e182-6aef-4c38-8d26-9153d7ebc7d2"]
                           Demo.as_jane JNull) Demo.db in
  response o
  = {| statusCode := 200;
       payload := JObj [("message", JStr "Budget deleted successfully")] |}
  /\ budgets (state o) = [Demo.rent].
Proof. vm_compute. auto. Qed.

Example jane_cannot_delete_johns_budget :
  let o := Demo.app
             (Demo.request DELETE
                           ["budgets"; "0b9e1f3a-1c2d-4e5f-8a9b-0c1d2e3f4a5b"]
                           Demo.as_jane JNull) Demo.db in
  statusCode (response o) = 500 /\ state o = Demo.db.
Proof. vm_compute. auto. Qed.

(** ** Logging in and registering *)

(** C4.  POST /auth/login is guarded by the local check of the email and
    password of the body: with valid credentials the answer is 201 with an
    object [{ accessToken, user }], the user being the account they belong
    to; with invalid credentials the request fails with 401 at the guard,
    before the handler runs: no service call is made and nothing changes. *)
Theorem login_guarded_by_credentials
        CreateBudgetDto UpdateBudgetDto
        (infra : Infra CreateBudgetDto UpdateBudgetDto)
        (q : RawRequest) (db : Db) :
  req_method q = POST ->
  req_path q = ["auth"; "login"] ->
  let o := serve (spec_wiring infra) (spec_services infra) q db in
  (forall u, authenticate infra db (req_body q) = Some u ->
             stage o = Handler
             /\ statusCode (response o) = 201
             /\ keys (payload (response o)) = ["accessToken"; "user"]
             /\ exists token,
                 payload (response o)
                 = JwtAndUser_toJSON
                     {| accessToken := token; authUser := u |})
  /\ (authenticate infra db (req_body q) = None ->
      statusCode (response o) = 401
      /\ stage o = Guards
      /\ service_calls o = []
      /\ state o = db).
Proof.
  intros Hm Hp o. subst o.
  rewrite (serve_login (spec_wiring infra) (spec_services infra) _ db
                       (route_login _ Hm Hp)).
  cbn [LocalAuthGuard spec_wiring]. unfold LocalAuthGuard_spec.
  split.
  - intros u Hu. rewrite Hu. repeat split.
    exists (jwt_sign infra {| sub := user_id u |}). reflexivity.
  - intros Hu. rewrite Hu. repeat split.
Qed.

Lemma login_guarded_by_credentials_witness :
  let q := Demo.request POST ["auth"; "login"] None
                        (JObj [("email", JStr "janesmith@example.com");
                               ("password", JStr "secret")]) in
  let db := Demo.db in
  (req_method q = POST /\ req_path q = ["auth"; "login"])
  /\ let o := serve (spec_wiring Demo.infra) (spec_services Demo.infra) q db in
     (forall u, authenticate Demo.infra db (req_body q) = Some u ->
                stage o = Handler
                /\ statusCode (response o) = 201
                /\ keys (payload (response o)) = ["accessToken"; "user"]
                /\ exists token,
                    payload (response o)
                    = JwtAndUser_toJSON
                        {| accessToken := token; authUser := u |})
     /\ (authenticate Demo.infra db (req_body q) = None ->
         statusCode (response o) = 401
         /\ stage o = Guards
         /\ service_calls o = []
         /\ state o = db).
Proof.
  intros q db.
  split; [split; reflexivity |].
  apply (login_guarded_by_credentials Demo.infra q db); reflexivity.
Defined.

Example jane_logs_in :
  response
    (Demo.app (Demo.request POST ["auth"; "login"] None
                            (JObj [("email", JStr "janesmith@example.com");
                                   ("password", JStr "secret")])) Demo.db)
  = {| statusCode := 201;
       payload := JObj [("accessToken", JStr "jwt.u-jane");
                        ("user", User_toJSON Demo.jane)] |}.
Proof. vm_compute. reflexivity. Qed.

Example wrong_password_is_401 :
  let o := Demo.app
             (Demo.request POST ["auth"; "login"] None
                           (JObj [("email", JStr "janesmith@example.com");
                                  ("password", JStr "guess")]))
             Demo.db in
  statusCode (response o) = 401 /\ stage o = Guards /\ service_calls o = [].
Proof. vm_compute. auto. Qed.

(** C5.  POST /auth/register, on a body with name, email and password:
    when the body passes validation, as the DTO [dto], the handler makes the
    one call [registerUser dto] and the answer is 201 with an object
    [{ accessToken, user }]; when validation fails the request fails with
    400 in the pipe, and no service call is made. *)
Theorem register_validates_body
        CreateBudgetDto UpdateBudgetDto
        (infra : Infra CreateBudgetDto UpdateBudgetDto)
        (q : RawRequest) (db : Db) :
  req_method q = POST ->
  req_path q = ["auth"; "register"] ->
  let o := serve (spec_wiring infra) (spec_services infra) q db in
  (forall dto, toCreateUserDto_spec infra (req_body q) = inr dto ->
               (str_field "name" (req_body q) = Some (name dto)
                /\ str_field "email" (req_body q) = Some (email dto)
                /\ str_field "password" (req_body q) = Some (password dto))
               /\ service_calls o
                  = [AuthCall (logged (AuthService.registerUser dto))]
               /\ statusCode (response o) = 201
               /\ keys (payload (response o)) = ["accessToken"; "user"])
  /\ (forall t, toCreateUserDto_spec infra (req_body q) = inl t ->
                statusCode (response o) = 400
                /\ stage o = Pipes
                /\ service_calls o = []
                /\ state o = db).
Proof.
  intros Hm Hp o. subst o.
  rewrite (serve_register (spec_wiring infra) (spec_services infra) _ db
                          (route_register _ Hm Hp)).
  cbn [toCreateUserDto spec_wiring].
  split.
  - intros dto Hd. rewrite Hd. split; [| repeat split].
    unfold toCreateUserDto_spec, parse_CreateUserDto in Hd.
    destruct (str_field "name" (req_body q)) as [n |]; [| discriminate].
    destruct (str_field "email" (req_body q)) as [e |]; [| discriminate].
    destruct (str_field "password" (req_body q)) as [pw |]; [| discriminate].
    destruct (violations infra _); [| discriminate].
    injection Hd as <-. auto.
  - intros t Ht. rewrite Ht.
    assert (Hs : status_of t = 400).
    { unfold toCreateUserDto_spec in Ht.
      destruct (parse_CreateUserDto (req_body q)) as [dto |].
      - destruct (violations infra dto); [discriminate |].
        injection Ht as <-. reflexivity.
      - injection Ht as <-. reflexivity. }
    repeat split. exact Hs.
Qed.

Lemma register_validates_body_witness :
  let q := Demo.request POST ["auth"; "register"] None
                        (JObj [("name", JStr "John Doe");
                               ("email", JStr "john@example.com");
                               ("password", JStr "hunter2")]) in
  let db := Demo.db in
  (req_method q = POST /\ req_path q = ["auth"; "register"])
  /\ let o := serve (spec_wiring Demo.infra) (spec_services Demo.infra) q db in
     (forall dto, toCreateUserDto_spec Demo.infra (req_body q) = inr dto ->
                  (str_field "name" (req_body q) = Some (name dto)
                   /\ str_field "email" (req_body q) = Some (email dto)
                   /\ str_field "password" (req_body q) = Some (password dto))
                  /\ service_calls o
                     = [AuthCall (logged (AuthService.registerUser dto))]
                  /\ statusCode (response o) = 201
                  /\ keys (payload (response o)) = ["accessToken"; "user"])
     /\ (forall t, toCreateUserDto_spec Demo.infra (req_body q) = inl t ->
                   statusCode (response o) = 400
                   /\ stage o = Pipes
                   /\ service_calls o = []
                   /\ state o = db).
Proof.
  intros q db.
  split; [split; reflexivity |].
  apply (register_validates_body Demo.infra q db); reflexivity.
Defined.

Example john_registers :
  let o := Demo.app (Demo.request POST ["auth"; "register"] None
                                  (JObj [("name", JStr "John Doe");
                                         ("email", JStr "john@example.com");
                                         ("password", JStr "hunter2")]))
                    Demo.db in
  statusCode (response o) = 201
  /\ keys (payload (response o)) = ["accessToken"; "user"]
  /\ length (accounts (state o)) = 2%nat.
Proof. vm_compute. auto. Qed.

Example empty_name_is_400 :
  let o := Demo.app (Demo.request POST ["auth"; "register"] None
                                  (JObj [("name", JStr "");
                                         ("email", JStr "john@example.com");
                                         ("password", JStr "hunter2")]))
                    Demo.db in
  response o
  = error_response (BadRequestException "name should not be empty")
  /\ stage o = Pipes /\ state o = Demo.db.
Proof. vm_compute. auto. Qed.

(** * Further properties of the controllers *)

(** ** Routing *)





Example balance_is_not_shadowed_by_findOne :
  router (Demo.request GET ["budgets"; "balance"; "balance"] None JNull)
  = Some (BudgetsRoute BudgetsController.GetBalance, [("id", "balance")])
  /\ router (Demo.request GET ["budgets"; "balance"] None JNull)
     = Some (BudgetsRoute BudgetsController.FindOne, [("id", "balance")]).
Proof. split; reflexivity. Qed.

(** X2.  Nothing under /budgets is served without the guard: a request
    whose path starts with budgets and that [JwtAuthGuard] rejects makes no
    service call and leaves the state as it was, for every guard, pipe and
    service; it is answered by the guard's error, or by the router's 404
    when no route matches. *)
Theorem budgets_paths_are_guarded
        S CreateBudgetDto UpdateBudgetDto
        (w : Wiring S CreateBudgetDto UpdateBudgetDto)
        (svc : Services S CreateBudgetDto UpdateBudgetDto)
        (q : RawRequest) (s : S) rest t :
  req_path q = "budgets" :: rest ->
  JwtAuthGuard w s q = inl t ->
  let o := serve w svc q s in
  service_calls o = []
  /\ state o = s
  /\ ((stage o = Guards /\ response o = error_response t)
      \/ (stage o = Routing /\ router q = None
          /\ statusCode (response o) = 404)).
Proof.
  intros Hp Hg o. subst o.
  destruct (router q) as [[[r | r] ps] |] eqn:Hr.
  - apply router_sound in Hr. destruct Hr as [_ Hr].
    rewrite Hp in Hr. destruct r; discriminate Hr.
  - rewrite (serve_budgets_unauthorized w svc _ _ Hr Hg).
    simpl. auto.
  - unfold serve. rewrite Hr. simpl. auto 6.
Qed.

Lemma budgets_paths_are_guarded_witness :
  let w := spec_wiring Demo.infra in
  let svc := spec_services Demo.infra in
  let t := UnauthorizedException "Unauthorized" in
  let q := Demo.request DELETE
                        ["budgets"; "b2c6e182-6aef-4c38-8d26-9153d7ebc7d2"]
                        (Some "Bearer forged") JNull in
  (req_path q = "budgets" :: ["b2c6e182-6aef-4c38-8d26-9153d7ebc7d2"]
   /\ JwtAuthGuard w Demo.db q = inl t)
  /\ let o := serve w svc q Demo.db in
     service_calls o = []
     /\ state o = Demo.db
     /\ ((stage o = Guards /\ response o = error_response t)
         \/ (stage o = Routing /\ router q = None
             /\ statusCode (response o) = 404)).
Proof.
  intros w svc t q.
  split; [split; reflexivity |].
  apply (budgets_paths_are_guarded w svc q Demo.db
           (rest := ["b2c6e182-6aef-4c38-8d26-9153d7ebc7d2"]) (t := t));
    reflexivity.
Defined.

(** ** Creating and updating a budget *)

Lemma route_create q :
  req_method q = POST -> req_path q = ["budgets"] ->
  router q = Some (BudgetsRoute BudgetsController.Create, []).
Proof. intros Hm Hp. unfold router. rewrite Hm, Hp. reflexivity. Qed.

(** X3.  POST /budgets, for a request the guard admits with payload [p]:
    when the body comes through the pipe as [dto], the handler makes the one
    call [create (sub p) dto] and a budget the call resolves with is answered
    with status 201, a status the route does not document (it documents
    200); it is the only route whose status of success is not among those it
    documents.  When the pipe rejects the body, no call is made. *)
Theorem create_answers_201
        S CreateBudgetDto UpdateBudgetDto
        (w : Wiring S CreateBudgetDto UpdateBudgetDto)
        (svc : Services S CreateBudgetDto UpdateBudgetDto)
        (q : RawRequest) (s : S) (p : IPayloadToken) :
  req_method q = POST ->
  req_path q = ["budgets"] ->
  JwtAuthGuard w s q = inr p ->
  let o := serve w svc q s in
  (forall dto, toCreateBudgetDto w (req_body q) = inr dto ->
     let call := BudgetsService.create (sub p) dto in
     service_calls o = [BudgetsCall (logged call)]
     /\ state o = snd (budgetsService svc call s)
     /\ response o = reply POST Budget_toJSON (fst (budgetsService svc call s))
     /\ (forall b, fst (budgetsService svc call s) = inr b ->
           response o = {| statusCode := 201; payload := Budget_toJSON b |}
           /\ ~ In (statusCode (response o))
                   (BudgetsController.documented BudgetsController.Create)))
  /\ (forall t, toCreateBudgetDto w (req_body q) = inl t ->
        o = rejected Pipes t s)
  /\ (forall r, In (success_status (route_method r)) (route_documented r)
                <-> r <> BudgetsRoute BudgetsController.Create).
Proof.
  intros Hm Hp Hg o. subst o.
  rewrite (serve_budgets_admitted w svc _ _ (route_create _ Hm Hp) Hg).
  cbn [BudgetsController.invoke raw].
  split; [| split].
  - intros dto Hd. rewrite Hd.
    cbn [rbind ok BudgetsController.http_method].
    set (call := BudgetsService.create (sub p) dto).
    change (BudgetsController.create dto {| raw := q; user := Some p |})
      with (await call).
    rewrite respond_pmap_await. cbn [service_calls state response].
    split; [reflexivity |]. split; [reflexivity |]. split; [reflexivity |].
    intros b Hb. rewrite Hb. split; [reflexivity |].
    simpl. intros [? | [? | [? | []]]]; discriminate.
  - intros t Ht. rewrite Ht. reflexivity.
  - intros r. split.
    + intros Hin ->. simpl in Hin.
      destruct Hin as [? | [? | [? | []]]]; discriminate.
    + intros Hr. destruct r as [[] | []]; simpl; auto; congruence.
Qed.

Lemma create_answers_201_witness :
  let w := spec_wiring Demo.infra in
  let svc := spec_services Demo.infra in
  let s := Demo.db in
  let p := {| sub := "u-jane" |} in
  let q := Demo.request POST ["budgets"] Demo.as_jane (JObj []) in
  (req_method q = POST /\ req_path q = ["budgets"]
   /\ JwtAuthGuard w s q = inr p)
  /\ let o := serve w svc q s in
     (forall dto, toCreateBudgetDto w (req_body q) = inr dto ->
        let call := BudgetsService.create (sub p) dto in
        service_calls o = [BudgetsCall (logged call)]
        /\ state o = snd (budgetsService svc call s)
        /\ response o
           = reply POST Budget_toJSON (fst (budgetsService svc call s))
        /\ (forall b, fst (budgetsService svc call s) = inr b ->
              response o = {| statusCode := 201; payload := Budget_toJSON b |}
              /\ ~ In (statusCode (response o))
                      (BudgetsController.documented
                         BudgetsController.Create)))
     /\ (forall t, toCreateBudgetDto w (req_body q) = inl t ->
           o = rejected Pipes t s)
     /\ (forall r, In (success_status (route_method r)) (route_documented r)
                   <-> r <> BudgetsRoute BudgetsController.Create).
Proof.
  intros w svc s p q.
  split; [repeat split |].
  apply (create_answers_201 w svc q s (p := p)); reflexivity.
Defined.

(** X4.  PATCH /budgets/:id, for a request the guard admits with payload
    [p] and a well-formed id: when the body comes through the pipe as [dto],
    the handler makes the one call [update id (sub p) dto], the id being the
    segment of the path and the owner the subject of the token, and answers
    with what the call gives, status 200 for a budget; when the pipe rejects
    the body, the request stops there and no call is made. *)
Theorem update_forwards_id_owner_and_body
        S CreateBudgetDto UpdateBudgetDto
        (w : Wiring S CreateBudgetDto UpdateBudgetDto)
        (svc : Services S CreateBudgetDto UpdateBudgetDto)
        (q : RawRequest) (s : S) (id : string) (p : IPayloadToken) :
  req_method q = PATCH ->
  req_path q = ["budgets"; id] ->
  JwtAuthGuard w s q = inr p ->
  isUUID id = true ->
  let o := serve w svc q s in
  (forall dto, toUpdateBudgetDto w (req_body q) = inr dto ->
     let call := BudgetsService.update id (sub p) dto in
     service_calls o = [BudgetsCall (logged call)]
     /\ state o = snd (budgetsService svc call s)
     /\ response o
        = reply PATCH Budget_toJSON (fst (budgetsService svc call s))
     /\ (forall b, fst (budgetsService svc call s) = inr b ->
           response o = {| statusCode := 200; payload := Budget_toJSON b |}))
  /\ (forall t, toUpdateBudgetDto w (req_body q) = inl t ->
        o = rejected Pipes t s).
Proof.
  intros Hm Hp Hg Hid o. subst o.
  rewrite (serve_budgets_admitted w svc _ _ (route_update _ Hm Hp) Hg).
  cbn [BudgetsController.invoke raw].
  change (param "id" [("id", id)]) with id.
  rewrite (ParseUUIDPipe_accepts _ Hid). cbn [rbind].
  split.
  - intros dto Hd. rewrite Hd.
    cbn [rbind ok BudgetsController.http_method].
    set (call := BudgetsService.update id (sub p) dto).
    change (BudgetsController.update id dto {| raw := q; user := Some p |})
      with (await call).
    rewrite respond_pmap_await. cbn [service_calls state response].
    split; [reflexivity |]. split; [reflexivity |]. split; [reflexivity |].
    intros b Hb. rewrite Hb. reflexivity.
  - intros t Ht. rewrite Ht. reflexivity.
Qed.

Lemma update_forwards_id_owner_and_body_witness :
  let w := spec_wiring Demo.infra in
  let svc := spec_services Demo.infra in
  let s := Demo.db in
  let id := "b2c6e182-6aef-4c38-8d26-9153d7ebc7d2" in
  let p := {| sub := "u-jane" |} in
  let q := Demo.request PATCH ["budgets"; id] Demo.as_jane (JObj []) in
  (req_method q = PATCH /\ req_path q = ["budgets"; id]
   /\ JwtAuthGuard w s q = inr p /\ isUUID id = true)
  /\ let o := serve w svc q s in
     (forall dto, toUpdateBudgetDto w (req_body q) = inr dto ->
        let call := BudgetsService.update id (sub p) dto in
        service_calls o = [BudgetsCall (logged call)]
        /\ state o = snd (budgetsService svc call s)
        /\ response o
           = reply PATCH Budget_toJSON (fst (budgetsService svc call s))
        /\ (forall b, fst (budgetsService svc call s) = inr b ->
              response o
              = {| statusCode := 200; payload := Budget_toJSON b |}))
     /\ (forall t, toUpdateBudgetDto w (req_body q) = inl t ->
           o = rejected Pipes t s).
Proof.
  intros w svc s id p q.
  split; [repeat split |].
  apply (update_forwards_id_owner_and_body w svc q s (id := id) (p := p));
    reflexivity.
Defined.

Example jane_creates_a_budget :
  let o := Ledger.app (Demo.request POST ["budgets"] Demo.as_jane
                                    (JObj [("category", JStr "travel")]))
                      Demo.db in
  statusCode (response o) = 201
  /\ owners (service_calls o) = ["u-jane"]
  /\ payload (response (Ledger.app (Demo.search Demo.as_jane []) (state o)))
     = JArr [Budget_toJSON Demo.groceries;
             Budget_toJSON
               {| budget_id := "6fa459ea-ee8a-3ca4-894e-db77e160355e";
                  budget_user := "u-jane"; budget_category := "travel";
                  budget_month := 0; budget_status := pending;
                  budget_amount := 0; budget_spent := 0 |}].
Proof. vm_compute. auto. Qed.

(** ** The auth routes, for every guard and service *)

(** X5.  POST /auth/register runs no guard: it never stops at the guards,
    and neither the guards of the application nor the Authorization header
    change what it does.  The body as the pipe delivers it is handed to
    [registerUser] unchanged, in the one call the handler makes; what the
    call resolves with is answered with status 201, what it throws with the
    status of the error; a body the pipe rejects reaches no service. *)
Theorem register_runs_no_guard
        S CreateBudgetDto UpdateBudgetDto
        (w w' : Wiring S CreateBudgetDto UpdateBudgetDto)
        (svc : Services S CreateBudgetDto UpdateBudgetDto)
        (q : RawRequest) (s : S) (a : option string) :
  req_method q = POST ->
  req_path q = ["auth"; "register"] ->
  toCreateUserDto w' (req_body q) = toCreateUserDto w (req_body q) ->
  let o := serve w svc q s in
  stage o <> Guards
  /\ serve w' svc (with_authorization a q) s = o
  /\ (forall dto, toCreateUserDto w (req_body q) = inr dto ->
        let call := AuthService.registerUser dto in
        service_calls o = [AuthCall (logged call)]
        /\ state o = snd (authService svc call s)
        /\ response o
           = reply POST JwtAndUser_toJSON (fst (authService svc call s))
        /\ (forall r, fst (authService svc call s) = inr r ->
              response o
              = {| statusCode := 201; payload := JwtAndUser_toJSON r |})
        /\ (forall t, fst (authService svc call s) = inl t ->
              statusCode (response o) = status_of t))
  /\ (forall t, toCreateUserDto w (req_body q) = inl t ->
        o = rejected Pipes t s).
Proof.
  intros Hm Hp Hpipe o. subst o.
  assert (Hr := route_register _ Hm Hp).
  assert (Hr' : router (with_authorization a q)
                = Some (AuthRoute AuthController.Register, []))
    by (rewrite router_with_authorization; exact Hr).
  rewrite (serve_register w' svc _ s Hr').
  rewrite (serve_register w svc _ s Hr).
  change (req_body (with_authorization a q)) with (req_body q).
  rewrite Hpipe.
  destruct (toCreateUserDto w (req_body q)) as [t | dto].
  - split; [discriminate |]. split; [reflexivity |].
    split; [discriminate |]. intros t' Ht. congruence.
  - split; [discriminate |]. split; [reflexivity |].
    split; [| discriminate].
    intros dto' Hd. injection Hd as <-. cbn [service_calls state response].
    split; [reflexivity |]. split; [reflexivity |]. split; [reflexivity |].
    split.
    + intros r Hres. rewrite Hres. reflexivity.
    + intros t Hres. rewrite Hres. reflexivity.
Qed.

Lemma register_runs_no_guard_witness :
  let w := spec_wiring Demo.infra in
  let svc := spec_services Demo.infra in
  let s := Demo.db in
  let a := Some "Bearer forged" in
  let q := Demo.request POST ["auth"; "register"] None
                        (JObj [("name", JStr "John Doe");
                               ("email", JStr "john@example.com");
                               ("password", JStr "hunter2")]) in
  (req_method q = POST /\ req_path q = ["auth"; "register"]
   /\ toCreateUserDto w (req_body q) = toCreateUserDto w (req_body q))
  /\ let o := serve w svc q s in
     stage o <> Guards
     /\ serve w svc (with_authorization a q) s = o
     /\ (forall dto, toCreateUserDto w (req_body q) = inr dto ->
           let call := AuthService.registerUser dto in
           service_calls o = [AuthCall (logged call)]
           /\ state o = snd (authService svc call s)
           /\ response o
              = reply POST JwtAndUser_toJSON (fst (authService svc call s))
           /\ (forall r, fst (authService svc call s) = inr r ->
                 response o
                 = {| statusCode := 201; payload := JwtAndUser_toJSON r |})
           /\ (forall t, fst (authService svc call s) = inl t ->
                 statusCode (response o) = status_of t))
     /\ (forall t, toCreateUserDto w (req_body q) = inl t ->
           o = rejected Pipes t s).
Proof.
  intros w svc s a q.
  split; [repeat split |].
  apply (register_runs_no_guard w w svc q s a); reflexivity.
Defined.

(** X6.  POST /auth/login, for every guard and service: a request the
    guard admits with the user [u] makes the one call
    [generateJwtToken u], for that very user, and is answered with what the
    call gives, status 201 when it resolves; a request the guard rejects is
    answered with the guard's error and reaches no service.  The handler
    takes nothing but the request: no pipe of the application has a say. *)
Theorem login_hands_over_the_guards_user
        S CreateBudgetDto UpdateBudgetDto
        (w w' : Wiring S CreateBudgetDto UpdateBudgetDto)
        (svc : Services S CreateBudgetDto UpdateBudgetDto)
        (q : RawRequest) (s : S) :
  req_method q = POST ->
  req_path q = ["auth"; "login"] ->
  LocalAuthGuard w' s q = LocalAuthGuard w s q ->
  let o := serve w svc q s in
  serve w' svc q s = o
  /\ (forall u, LocalAuthGuard w s q = inr u ->
        let call := AuthService.generateJwtToken (Some u) in
        service_calls o = [AuthCall (logged call)]
        /\ state o = snd (authService svc call s)
        /\ response o
           = reply POST JwtAndUser_toJSON (fst (authService svc call s))
        /\ (forall r, fst (authService svc call s) = inr r ->
              response o
              = {| statusCode := 201; payload := JwtAndUser_toJSON r |}))
  /\ (forall t, LocalAuthGuard w s q = inl t -> o = rejected Guards t s).
Proof.
  intros Hm Hp Hguard o. subst o.
  assert (Hr := route_login _ Hm Hp).
  rewrite (serve_login w' svc _ s Hr), (serve_login w svc _ s Hr), Hguard.
  split; [reflexivity |].
  destruct (LocalAuthGuard w s q) as [t | u].
  - split; [discriminate |]. intros t' Ht. congruence.
  - split; [| discriminate].
    intros u' Hu. injection Hu as <-. cbn [service_calls state response].
    split; [reflexivity |]. split; [reflexivity |]. split; [reflexivity |].
    intros r Hres. rewrite Hres. reflexivity.
Qed.

Lemma login_hands_over_the_guards_user_witness :
  let w := spec_wiring Demo.infra in
  let w' := spec_wiring Ledger.infra in
  let svc := spec_services Demo.infra in
  let s := Demo.db in
  let q := Demo.request POST ["auth"; "login"] None
                        (JObj [("email", JStr "janesmith@example.com");
                               ("password", JStr "secret")]) in
  (req_method q = POST /\ req_path q = ["auth"; "login"]
   /\ LocalAuthGuard w' s q = LocalAuthGuard w s q)
  /\ let o := serve w svc q s in
     serve w' svc q s = o
     /\ (forall u, LocalAuthGuard w s q = inr u ->
           let call := AuthService.generateJwtToken (Some u) in
           service_calls o = [AuthCall (logged call)]
           /\ state o = snd (authService svc call s)
           /\ response o
              = reply POST JwtAndUser_toJSON (fst (authService svc call s))
           /\ (forall r, fst (authService svc call s) = inr r ->
                 response o
                 = {| statusCode := 201; payload := JwtAndUser_toJSON r |}))
     /\ (forall t, LocalAuthGuard w s q = inl t -> o = rejected Guards t s).
Proof.
  intros w w' svc s q.
  split; [repeat split |].
  apply (login_hands_over_the_guards_user w w' svc q s); reflexivity.
Defined.

(** ** What serving a request comes to *)


(** ** Handlers and [req.user] *)

(** X8.  A budgets handler reads [user.sub] before it calls the service:
    on a request whose [req.user] is undefined each of the six throws a
    TypeError, calls nothing and leaves the state as it was.  [login] reads
    no property of [req.user]: it makes its call all the same, with
    undefined for the user. *)
Theorem handlers_without_user
        S CreateBudgetDto UpdateBudgetDto
        (auth : Impl AuthService.Op S)
        (budgets : Impl (BudgetsService.Op CreateBudgetDto UpdateBudgetDto) S)
        (q : RawRequest) (s : S)
        (createBudgetDto : CreateBudgetDto)
        (updateBudgetDto : UpdateBudgetDto)
        (filterOptions : FilterBudgetDto) (id : string) :
  let req := {| raw := q; user := None |} in
  let failed A : Run (BudgetsService.Op CreateBudgetDto UpdateBudgetDto) S A :=
    {| result :=
         inl (TypeError
                "Cannot read properties of undefined (reading 'sub')");
       final := s;
       calls := [] |} in
  run budgets (BudgetsController.create createBudgetDto req) s = failed _
  /\ run budgets (BudgetsController.findAll req filterOptions) s = failed _
  /\ run budgets (BudgetsController.findOne id req) s = failed _
  /\ run budgets (BudgetsController.update id updateBudgetDto req) s
     = failed _
  /\ run budgets (BudgetsController.remove id req) s = failed _
  /\ run budgets (BudgetsController.getBalance id req) s = failed _
  /\ delegates auth (AuthController.login {| raw := q; user := None |})
               (AuthService.generateJwtToken None).
Proof.
  intros req failed. repeat (split; [reflexivity |]).
  intro s0. simpl.
  destruct (auth _ (AuthService.generateJwtToken None) s0) as [[t | x] s'];
    reflexivity.
Qed.

(** ** Answers the routes do not document *)

(** X9.  DELETE /budgets/:id, for an admitted request with a well-formed
    id and for every service: the handler makes the one call
    [remove id sub]; the message the call resolves with is answered as it
    is, with status 200; an HTTP exception of the service keeps its status,
    so that a NotFoundException of the service is answered 404, a status
    the route does not document. *)
Theorem remove_passes_service_errors
        S CreateBudgetDto UpdateBudgetDto
        (w : Wiring S CreateBudgetDto UpdateBudgetDto)
        (svc : Services S CreateBudgetDto UpdateBudgetDto)
        (q : RawRequest) (s : S) (id : string) (p : IPayloadToken) :
  req_method q = DELETE ->
  req_path q = ["budgets"; id] ->
  JwtAuthGuard w s q = inr p ->
  isUUID id = true ->
  let o := serve w svc q s in
  let call := BudgetsService.remove id (sub p) in
  service_calls o = [BudgetsCall (logged call)]
  /\ state o = snd (budgetsService svc call s)
  /\ (forall r, fst (budgetsService svc call s) = inr r ->
        response o
        = {| statusCode := 200;
             payload := JObj [("message", JStr (message r))] |})
  /\ (forall st msg,
        fst (budgetsService svc call s) = inl (HttpException st msg) ->
        statusCode (response o) = st)
  /\ (forall msg,
        fst (budgetsService svc call s) = inl (NotFoundException msg) ->
        statusCode (response o) = 404
        /\ ~ In (statusCode (response o))
                (BudgetsController.documented BudgetsController.Remove)).
Proof.
  intros Hm Hp Hg Hid o call. subst o.
  rewrite (serve_remove w svc _ _ Hm Hp Hg Hid).
  cbn [service_calls state response]. fold call.
  split; [reflexivity |]. split; [reflexivity |]. split; [| split].
  - intros r Hr. rewrite Hr. reflexivity.
  - intros st msg Hr. rewrite Hr. reflexivity.
  - intros msg Hr. rewrite Hr. split; [reflexivity |].
    simpl. intros [? | [? | [? | []]]]; discriminate.
Qed.

Lemma remove_passes_service_errors_witness :
  let w := spec_wiring Demo.infra in
  let svc := spec_services Demo.infra in
  let s := Demo.db in
  let id := "0b9e1f3a-1c2d-4e5f-8a9b-0c1d2e3f4a5b" in
  let p := {| sub := "u-jane" |} in
  let q := Demo.request DELETE ["budgets"; id] Demo.as_jane JNull in
  (req_method q = DELETE /\ req_path q = ["budgets"; id]
   /\ JwtAuthGuard w s q = inr p /\ isUUID id = true)
  /\ let o := serve w svc q s in
     let call := BudgetsService.remove id (sub p) in
     service_calls o = [BudgetsCall (logged call)]
     /\ state o = snd (budgetsService svc call s)
     /\ (forall r, fst (budgetsService svc call s) = inr r ->
           response o
           = {| statusCode := 200;
                payload := JObj [("message", JStr (message r))] |})
     /\ (forall st msg,
           fst (budgetsService svc call s) = inl (HttpException st msg) ->
           statusCode (response o) = st)
     /\ (forall msg,
           fst (budgetsService svc call s) = inl (NotFoundException msg) ->
           statusCode (response o) = 404
           /\ ~ In (statusCode (response o))
                   (BudgetsController.documented BudgetsController.Remove)).
Proof.
  intros w svc s id p q.
  split; [repeat split |].
  apply (remove_passes_service_errors w svc q s (id := id) (p := p));
    reflexivity.
Defined.

(** X10.  GET /budgets/:id/balance, for an admitted request with a
    well-formed id and for every service: the handler makes the one call
    [getBalance id sub]; the balance the call resolves with is answered with
    status 200 and its five amounts as they are, under exactly the five
    names; an error of the call is answered with its own status. *)
Theorem getBalance_forwards_the_balance
        S CreateBudgetDto UpdateBudgetDto
        (w : Wiring S CreateBudgetDto UpdateBudgetDto)
        (svc : Services S CreateBudgetDto UpdateBudgetDto)
        (q : RawRequest) (s : S) (id : string) (p : IPayloadToken) :
  req_method q = GET ->
  req_path q = ["budgets"; id; "balance"] ->
  JwtAuthGuard w s q = inr p ->
  isUUID id = true ->
  let o := serve w svc q s in
  let call := BudgetsService.getBalance id (sub p) in
  service_calls o = [BudgetsCall (logged call)]
  /\ state o = snd (budgetsService svc call s)
  /\ (forall b, fst (budgetsService svc call s) = inr b ->
        response o
        = {| statusCode := 200;
             payload :=
               JObj [("initial_amount", JNum (initial_amount b));
                     ("spent_amount", JNum (spent_amount b));
                     ("percentage_spent_amount",
                      JNum (percentage_spent_amount b));
                     ("remaining_amount", JNum (remaining_amount b));
                     ("percentage_remaining_amount",
                      JNum (percentage_remaining_amount b))] |})
  /\ (forall t, fst (budgetsService svc call s) = inl t ->
        response o = error_response t
        /\ statusCode (response o) = status_of t).
Proof.
  intros Hm Hp Hg Hid o call. subst o.
  rewrite (serve_getBalance w svc _ _ Hm Hp Hg Hid).
  cbn [service_calls state response]. fold call.
  split; [reflexivity |]. split; [reflexivity |]. split.
  - intros b Hb. rewrite Hb. reflexivity.
  - intros t Ht. rewrite Ht. split; reflexivity.
Qed.

Lemma getBalance_forwards_the_balance_witness :
  let w := spec_wiring Demo.infra in
  let svc := spec_services Demo.infra in
  let s := Demo.db in
  let id := "b2c6e182-6aef-4c38-8d26-9153d7ebc7d2" in
  let p := {| sub := "u-jane" |} in
  let q := Demo.request GET ["budgets"; id; "balance"] Demo.as_jane JNull in
  (req_method q = GET /\ req_path q = ["budgets"; id; "balance"]
   /\ JwtAuthGuard w s q = inr p /\ isUUID id = true)
  /\ let o := serve w svc q s in
     let call := BudgetsService.getBalance id (sub p) in
     service_calls o = [BudgetsCall (logged call)]
     /\ state o = snd (budgetsService svc call s)
     /\ (forall b, fst (budgetsService svc call s) = inr b ->
           response o
           = {| statusCode := 200;
                payload :=
                  JObj [("initial_amount", JNum (initial_amount b));
                        ("spent_amount", JNum (spent_amount b));
                        ("percentage_spent_amount",
                         JNum (percentage_spent_amount b));
                        ("remaining_amount", JNum (remaining_amount b));
                        ("percentage_remaining_amount",
                         JNum (percentage_remaining_amount b))] |})
     /\ (forall t, fst (budgetsService svc call s) = inl t ->
           response o = error_response t
           /\ statusCode (response o) = status_of t).
Proof.
  intros w svc s id p q.
  split; [repeat split |].
  apply (getBalance_forwards_the_balance w svc q s (id := id) (p := p));
    reflexivity.
Defined.

(** X11.  The four routes that take an id answer a malformed one with 400,
    for every admitted request and every service, and none of the four
    documents that status. *)
Theorem malformed_id_status_is_undocumented
        S CreateBudgetDto UpdateBudgetDto
        (w : Wiring S CreateBudgetDto UpdateBudgetDto)
        (svc : Services S CreateBudgetDto UpdateBudgetDto)
        (q : RawRequest) (s : S) r (id : string) (p : IPayloadToken) :
  router q = Some (BudgetsRoute r, [("id", id)]) ->
  JwtAuthGuard w s q = inr p ->
  isUUID id = false ->
  let o := serve w svc q s in
  statusCode (response o) = 400
  /\ ~ In (statusCode (response o)) (BudgetsController.documented r).
Proof.
  intros Hr Hg Hid o. subst o.
  assert (Hin : In r [BudgetsController.FindOne; BudgetsController.Update;
                      BudgetsController.Remove; BudgetsController.GetBalance]).
  { destruct (router_sound _ Hr) as [_ Hp].
    destruct r; simpl; auto;
      destruct (req_path q) as [| a [| b [| c l]]];
      cbn [match_path full_path BudgetsController.prefix
           BudgetsController.route_path option_map] in Hp;
      try discriminate;
      repeat match type of Hp with
        | context [if ?c then _ else _] => destruct c
        end;
      discriminate. }
  rewrite (@serve_malformed_id _ _ _ w svc q s r id p Hr Hin Hg Hid).
  split; [reflexivity |].
  cbn [response rejected error_response statusCode status_of
       BadRequestException].
  destruct Hin as [<- | [<- | [<- | [<- | []]]]]; simpl;
    intuition discriminate.
Qed.

Lemma malformed_id_status_is_undocumented_witness :
  let w := spec_wiring Demo.infra in
  let svc := spec_services Demo.infra in
  let s := Demo.db in
  let p := {| sub := "u-jane" |} in
  let q := Demo.request PATCH ["budgets"; "42"] Demo.as_jane (JObj []) in
  (router q = Some (BudgetsRoute BudgetsController.Update, [("id", "42")])
   /\ JwtAuthGuard w s q = inr p /\ isUUID "42" = false)
  /\ let o := serve w svc q s in
     statusCode (response o) = 400
     /\ ~ In (statusCode (response o))
             (BudgetsController.documented BudgetsController.Update).
Proof.
  intros w svc s p q.
  split; [repeat split |].
  apply (malformed_id_status_is_undocumented
           w svc q s (r := BudgetsController.Update) (id := "42") (p := p));
    reflexivity.
Defined.

(** ** The request lines that are served *)


Example other_lines_find_no_route :
  map (fun mp => router (Demo.request (fst mp) (snd mp) Demo.as_jane JNull))
      [ (GET, ["auth"; "login"]); (DELETE, ["budgets"]);
        (POST, ["budgets"; "b2c6e182-6aef-4c38-8d26-9153d7ebc7d2"]);
        (PATCH, ["budgets"; "b2c6e182-6aef-4c38-8d26-9153d7ebc7d2";
                 "balance"]);
        (GET, []) ]
  = [None; None; None; None; None].
Proof. reflexivity. Qed.
